(** * Companion AI: memory extraction and personality transformation

    A shallow embedding of [modules/memory.py], [modules/personality.py] and
    their caller [app.py].

    - [Py]          the Python values the two modules handle (the values a
                    JSON document decodes to), with the dynamic operations
                    the code applies to them: truthiness, [dict.get],
                    subscripting, slicing, iteration, [str.join], [str()].
    - [LangChain]   the part of the LangChain interface the code relies on:
                    chat models as configuration records, prompt templates,
                    and programs that issue requests to the completion
                    provider.
    - [Memory]      [MemoryExtractor].
    - [Personality] [PersonalityEngine].
    - [PyStr]       [str.strip] and [str.split], which [app.py] uses.
    - [App]         [app.py]: one run of the Streamlit script.

    A Python [str] is a [string]; one [ascii] stands for one character. *)

From Stdlib Require Import List String Ascii ZArith Lia Bool DecimalString Floats.
Import ListNotations.

Set Implicit Arguments.
Set Warnings "-inexact-float,-register-all".

Open Scope list_scope.
Open Scope string_scope.

(** ** Characters that cannot be typed inside a literal *)

Definition nl : string := String (ascii_of_nat 10) EmptyString.
Definition dq : string := String (ascii_of_nat 34) EmptyString.

(** [sep.join(l)] on a list of [str]. *)
Definition join (sep : string) (l : list string) : string := String.concat sep l.

(** A text given line by line. *)
Definition text (lines : list string) : string := join nl lines.

(** Decimal rendering of an [int], as [str(n)] and [f"{n}"] give it. *)
Definition str_of_nat (n : nat) : string := NilEmpty.string_of_uint (Nat.to_uint n).
Definition str_of_Z (z : Z) : string := NilEmpty.string_of_int (Z.to_int z).


Fixpoint contains (sub s : string) : bool :=
  String.prefix sub s ||
  match s with
  | EmptyString => false
  | String _ s' => contains sub s'
  end.

(** ** Python values and exceptions *)

Module Py.

Inductive pyval : Type :=
| PNone
| PBool (b : bool)
| PInt (z : Z)
| PFloat (f : float)
| PStr (s : string)
| PList (l : list pyval)
| PDict (d : list (string * pyval)).

(** A [dict] with [str] keys, in insertion order; keys are unique. *)
Definition pydict : Type := list (string * pyval).

(** Exceptions derived from [Exception].  [ProviderError] stands for whatever
    the chat model raises when the request fails; [detail] is [str(e)]. *)
Inductive Exn : Type :=
| TypeError
| AttributeError
| KeyError
| OutputParserException (detail : string)
| ProviderError (detail : string).

Inductive PyResult (A : Type) : Type :=
| Return (a : A)
| Raise (e : Exn).
Arguments Return {A} a.
Arguments Raise {A} e.

Definition bindR {A B} (m : PyResult A) (k : A -> PyResult B) : PyResult B :=
  match m with
  | Return a => k a
  | Raise e => Raise e
  end.

Notation "x <- m ;; k" := (bindR m (fun x => k))
  (at level 61, m at next level, right associativity).

Fixpoint mapR {A B} (f : A -> PyResult B) (l : list A) : PyResult (list B) :=
  match l with
  | [] => Return []
  | a :: l' => b <- f a ;; bs <- mapR f l' ;; Return (b :: bs)
  end.

(** [bool(v)]. *)
Definition truthy (v : pyval) : bool :=
  match v with
  | PNone => false
  | PBool b => b
  | PInt z => negb (z =? 0)%Z
  | PFloat f => negb (PrimFloat.eqb f 0%float)
  | PStr EmptyString => false
  | PStr _ => true
  | PList [] => false
  | PList _ => true
  | PDict [] => false
  | PDict _ => true
  end.

(** Lookup of a key in a [dict]. *)
Fixpoint lookup {V} (k : string) (d : list (string * V)) : option V :=
  match d with
  | [] => None
  | (k', v) :: d' => if String.eqb k k' then Some v else lookup k d'
  end.

(** [k in d]. *)
Definition has_key {V} (k : string) (d : list (string * V)) : bool :=
  existsb (fun kv => String.eqb k (fst kv)) d.

(** [d.get(k)] and [d.get(k, default)] on a [dict]. *)
Definition dict_get (d : pydict) (k : string) : pyval :=
  match lookup k d with
  | Some v => v
  | None => PNone
  end.

Definition dict_get_default (d : pydict) (k : string) (default : pyval) : pyval :=
  match lookup k d with
  | Some v => v
  | None => default
  end.

(** [v.get(k, default)] on any value: only a [dict] has the method. *)
Definition get (v : pyval) (k : string) (default : pyval) : PyResult pyval :=
  match v with
  | PDict d => Return (dict_get_default d k default)
  | _ => Raise AttributeError
  end.

(** [d[k]]. *)
Definition getitem {V} (d : list (string * V)) (k : string) : PyResult V :=
  match lookup k d with
  | Some v => Return v
  | None => Raise KeyError
  end.

(** [v[:n]].  A [dict] cannot be sliced (its exception is a [TypeError] up to
    Python 3.11 and a [KeyError] afterwards; nothing here tells them apart). *)
Definition slice_to (n : nat) (v : pyval) : PyResult pyval :=
  match v with
  | PStr s => Return (PStr (String.substring 0 n s))
  | PList l => Return (PList (firstn n l))
  | _ => Raise TypeError
  end.

(** The items [for x in v] goes through. *)
Definition iter (v : pyval) : PyResult (list pyval) :=
  match v with
  | PStr s => Return (map (fun c => PStr (String c EmptyString)) (list_ascii_of_string s))
  | PList l => Return l
  | PDict d => Return (map (fun kv => PStr (fst kv)) d)
  | _ => Raise TypeError
  end.

Definition as_str (v : pyval) : PyResult string :=
  match v with
  | PStr s => Return s
  | _ => Raise TypeError
  end.

(** [sep.join(v)]: every item must be a [str]. *)
Definition str_join (sep : string) (v : pyval) : PyResult string :=
  items <- iter v ;;
  strs <- mapR as_str items ;;
  Return (join sep strs).

Section Str.

(** [repr] of floats and containers is left to the interpreter. *)
Variable py_repr : pyval -> string.

(** [str(v)], which is also what [f"{v}"] inserts. *)
Definition str (v : pyval) : string :=
  match v with
  | PStr s => s
  | PNone => "None"
  | PBool true => "True"
  | PBool false => "False"
  | PInt z => str_of_Z z
  | _ => py_repr v
  end.

End Str.

End Py.

(** ** The LangChain interface *)

Module LangChain.
Import Py.

(** [ChatOpenAI(model=..., temperature=..., api_key=...)]: a chat model is the
    configuration it was built with. *)
Record ChatOpenAI : Type := {
  model : string;
  temperature : float;
  api_key : string
}.

Inductive Role : Type := system | user.

(** What one call of a chat model sends: the messages of the formatted
    prompt, through the client the chain was built on. *)
Record Request : Type := {
  client : ChatOpenAI;
  messages : list (Role * string)
}.

(** What the provider answers: the [content] of the reply, or an exception
    whose [str(e)] is [detail]. *)
Inductive Outcome : Type :=
| Failed (detail : string)
| Content (content : string).

Definition Provider : Type := Request -> Outcome.

(** [JsonOutputParser()]: parsing of a reply, and the fixed text of
    [get_format_instructions()]. *)
Record JsonOutputParser : Type := {
  parse : string -> PyResult pyval;
  get_format_instructions : string
}.

(** A computation that may issue requests before it returns or raises. *)
Inductive Prog (A : Type) : Type :=
| Done (r : PyResult A)
| Invoke (req : Request) (k : Outcome -> Prog A).
Arguments Done {A} r.
Arguments Invoke {A} req k.

Definition ret {A} (a : A) : Prog A := Done (Return a).
Definition lift {A} (r : PyResult A) : Prog A := Done r.

Fixpoint bindP {A B} (m : Prog A) (f : A -> Prog B) : Prog B :=
  match m with
  | Done (Return a) => f a
  | Done (Raise e) => Done (Raise e)
  | Invoke req k => Invoke req (fun o => bindP (k o) f)
  end.

Notation "x <~ m ;; k" := (bindP m (fun x => k))
  (at level 61, m at next level, right associativity).

(** [try: body except Exception as e: handler(e)]. *)
Fixpoint try_except {A} (body : Prog A) (handler : Exn -> Prog A) : Prog A :=
  match body with
  | Done (Return a) => Done (Return a)
  | Done (Raise e) => handler e
  | Invoke req k => Invoke req (fun o => try_except (k o) handler)
  end.

(** [(prompt | llm).invoke(...)] followed by [.content]. *)
Definition invoke (req : Request) : Prog string :=
  Invoke req (fun o =>
    match o with
    | Content c => Done (Return c)
    | Failed detail => Done (Raise (ProviderError detail))
    end).

(** [try: return (prompt | llm).invoke(...).content] with
    [except Exception as e: return handler(str(e))].  Every slot of the
    prompt is supplied, so the only exception the [try] can see is the
    provider's. *)
Definition invoke_or (req : Request) (handler : string -> string) : Prog string :=
  Invoke req (fun o =>
    match o with
    | Content c => Done (Return c)
    | Failed detail => Done (Return (handler detail))
    end).

(** Running a computation against a provider: its result and the requests it
    issued, in order. *)
Fixpoint run {A} (p : Provider) (m : Prog A) : PyResult A * list Request :=
  match m with
  | Done r => (r, [])
  | Invoke req k => let (r, reqs) := run p (k (p req)) in (r, req :: reqs)
  end.


(** Binding of a call's arguments: [None] is an argument the caller left
    out.  A parameter without a default must be given, or the call raises
    [TypeError] before the body runs; one with a default takes it. *)
Definition required {A} (arg : option A) : PyResult A :=
  match arg with
  | Some a => Return a
  | None => Raise TypeError
  end.

Definition with_default {A} (arg : option A) (default : A) : A :=
  match arg with
  | Some a => a
  | None => default
  end.

End LangChain.

(** ** modules/memory.py *)

Module Memory.
Import Py LangChain.

(** A well-shaped memory: the three fields with the types the prompt asks for. *)
Record MemoryRecord : Type := {
  preferences : list string;
  emotional_patterns : string;
  facts : list string
}.

Definition to_dict (r : MemoryRecord) : pydict :=
  [ ("preferences", PList (map PStr (preferences r)));
    ("emotional_patterns", PStr (emotional_patterns r));
    ("facts", PList (map PStr (facts r))) ].

Record MemoryExtractor : Type := {
  llm : ChatOpenAI;
  parser : JsonOutputParser
}.

(** [enumerate(l)]. *)
Fixpoint enumerate_from {A} (start : nat) (l : list A) : list (nat * A) :=
  match l with
  | [] => []
  | a :: l' => (start, a) :: enumerate_from (S start) l'
  end.

Definition enumerate {A} (l : list A) : list (nat * A) := enumerate_from 0 l.

Definition chat_history (chat_messages : list string) : string :=
  join nl (map (fun im => "Message " ++ str_of_nat (fst im + 1) ++ ": " ++ snd im)
               (enumerate chat_messages)).

Definition system_prompt : string :=
  text
    [ "You are an expert at analyzing human communication patterns and extracting meaningful insights.";
      EmptyString;
      "Your task is to analyze the following chat messages from a single user and extract structured information.";
      EmptyString;
      "Analyze the messages carefully and identify:";
      EmptyString;
      "1. **User Preferences**: ";
      "   - What they like/dislike (tools, languages, work styles, activities)";
      "   - Habits and routines they mention";
      "   - Communication preferences";
      "   - Format as a list of specific, concrete preferences";
      EmptyString;
      "2. **Emotional Patterns**:";
      "   - Recurring emotional states (anxiety, excitement, frustration, calm)";
      "   - Triggers that cause specific emotions";
      "   - Overall emotional tone trends";
      "   - Format as a description of patterns observed";
      EmptyString;
      "3. **Facts Worth Remembering**:";
      "   - Personal information (name, role, job title if mentioned)";
      "   - Constraints (budget limits, technical limitations, time constraints)";
      "   - Goals and aspirations";
      "   - Important context about their situation";
      "   - Format as a list of key facts";
      EmptyString;
      "Be specific and evidence-based. Only include information that is clearly present in the messages.";
      "Do not make assumptions beyond what is stated." ].

(** The user template, as a function of its three slots. *)
Definition user_prompt (count chat_history format_instructions : string) : string :=
  text
    [ "Analyze these " ++ count ++ " chat messages and extract the structured information:";
      EmptyString;
      chat_history;
      EmptyString;
      "Return your analysis as a JSON object with exactly these keys:";
      "- " ++ dq ++ "preferences" ++ dq ++ ": array of strings (each preference as a separate item)";
      "- " ++ dq ++ "emotional_patterns" ++ dq ++ ": string (description of emotional patterns observed)";
      "- " ++ dq ++ "facts" ++ dq ++ ": array of strings (each fact as a separate item)";
      EmptyString;
      format_instructions ].

(** The [dict] of the [except] branch. *)
Definition fallback : pydict :=
  [ ("preferences", PList []);
    ("emotional_patterns", PStr "Neutral (Extraction failed, using default)");
    ("facts", PList []) ].

Definition extract_memory (self : MemoryExtractor) (chat_messages : list string)
  : Prog pydict :=
  let chat_history := chat_history chat_messages in
  let prompt count chat_history format_instructions :=
    [ (system, system_prompt);
      (user, user_prompt count chat_history format_instructions) ] in
  try_except
    (content <~ invoke {| client := llm self;
                          messages := prompt (str_of_nat (List.length chat_messages))
                                             chat_history
                                             (get_format_instructions (parser self)) |} ;;
     result <~ lift (parse (parser self) content) ;;
     preferences <~ lift (get result "preferences" (PList [])) ;;
     emotional_patterns <~
       lift (get result "emotional_patterns" (PStr "No clear patterns detected.")) ;;
     facts <~ lift (get result "facts" (PList [])) ;;
     let memory := [ ("preferences", preferences);
                     ("emotional_patterns", emotional_patterns);
                     ("facts", facts) ] in
     ret memory)
    (fun _ => ret fallback).

Section Constructor.

(** The parser object [JsonOutputParser()] builds. *)
Variable JsonOutputParser_new : JsonOutputParser.

(** [def __init__(self, api_key: str, model: str = "gpt-4o-mini")]. *)
Definition __init__ (api_key model : option string) : PyResult MemoryExtractor :=
  api_key <- required api_key ;;
  let model := with_default model "gpt-4o-mini" in
  Return {| llm := {| LangChain.model := model;
                      temperature := 0.3%float;
                      LangChain.api_key := api_key |};
            parser := JsonOutputParser_new |}.

End Constructor.

Section Summary.

Variable py_repr : pyval -> string.

(** One section of the summary: header and item lines when the field is
    truthy, nothing otherwise. *)
Definition bullet_section (memory : pydict) (key header : string)
  : PyResult (list string) :=
  if truthy (dict_get memory key) then
    v <- getitem memory key ;;
    items <- iter v ;;
    Return (header :: map (fun item => "- " ++ str py_repr item) items)
  else Return [].

(** The list [summary_parts] as it stands before the final [join]. *)
Definition summary_parts (memory : pydict) : PyResult (list string) :=
  prefs <- bullet_section memory "preferences" "**User Preferences:**" ;;
  emo <- (if truthy (dict_get memory "emotional_patterns") then
            v <- getitem memory "emotional_patterns" ;;
            Return [nl ++ "**Emotional Patterns:** " ++ str py_repr v]
          else Return []) ;;
  fcts <- bullet_section memory "facts" (nl ++ "**Key Facts:**") ;;
  Return (prefs ++ emo ++ fcts)%list.

Definition format_memory_summary (memory : pydict) : PyResult string :=
  summary_parts <- summary_parts memory ;;
  Return (match summary_parts with
          | [] => "No memory extracted yet."
          | _ => join nl summary_parts
          end).

End Summary.

End Memory.

(** ** modules/personality.py *)

Module Personality.
Import Py LangChain.

Record PersonalityInfo : Type := {
  name : string;
  description : string;
  traits : string
}.

Definition PERSONALITIES : list (string * PersonalityInfo) :=
  [ ("calm_mentor",
     {| name := "Calm Mentor";
        description := "Patient, step-by-step guidance with reassurance";
        traits := "patient, methodical, reassuring, encouraging, breaks down complex topics into simple steps" |});
    ("witty_friend",
     {| name := "Witty Friend";
        description := "Casual, humorous, and relatable";
        traits := "casual, humorous, uses slang and jokes, relatable, friendly banter, light-hearted" |});
    ("therapist_style",
     {| name := "Therapist-Style";
        description := "Empathetic, reflective, and supportive";
        traits := "empathetic, reflective, asks thoughtful questions, validates feelings, supportive, non-judgmental" |});
    ("neutral",
     {| name := "Standard AI";
        description := "Neutral, professional assistant";
        traits := "neutral, professional, informative, straightforward" |}) ].

Record PersonalityEngine : Type := {
  llm : ChatOpenAI
}.

(** [def __init__(self, api_key: str, model: str = "gpt-4o-mini")]. *)
Definition __init__ (api_key model : option string) : PyResult PersonalityEngine :=
  api_key <- required api_key ;;
  let model := with_default model "gpt-4o-mini" in
  Return {| llm := {| LangChain.model := model;
                      temperature := 0.7%float;
                      LangChain.api_key := api_key |} |}.

(** The system message, an f-string over the catalog entry. *)
Definition system_prompt (personality_info : PersonalityInfo) : string :=
  "You are transforming a standard AI response into a " ++ name personality_info ++
  text
    [ " style response.";
      EmptyString;
      "Your personality traits: " ] ++ traits personality_info ++
  text
    [ EmptyString;
      EmptyString;
      "Your task:";
      "1. Keep the core information and accuracy of the original response";
      "2. Transform the tone, style, and delivery to match the " ] ++ name personality_info ++
  text
    [ " personality";
      "3. Use the user's memory context to personalize the response (reference their preferences, acknowledge their emotional state, mention relevant facts)";
      "4. Make it feel natural and authentic to the personality style";
      EmptyString;
      "DO NOT change the factual content, only the delivery style and personalization." ].

(** The user template, as a function of its four slots. *)
Definition user_prompt
  (user_question standard_response memory_context personality_name : string) : string :=
  text
    [ "Transform this response:";
      EmptyString;
      "**Original User Question:**";
      user_question;
      EmptyString;
      "**Standard Response:**";
      standard_response;
      memory_context;
      EmptyString;
      "**Your Task:**";
      "Rewrite the response in the " ++ personality_name ++ " style, incorporating the user context naturally. ";
      "Make it feel personalized and authentic to both the personality and the user's situation." ].

Section Transform.

Variable py_repr : pyval -> string.

(** One line of the context: the label and the first three items of the
    field, comma-joined, when the field is truthy. *)
Definition joined_part (memory : pydict) (key label : string)
  : PyResult (list string) :=
  if truthy (dict_get memory key) then
    v <- getitem memory key ;;
    first3 <- slice_to 3 v ;;
    joined <- str_join ", " first3 ;;
    Return [label ++ joined]
  else Return [].

(** The list [memory_parts] of a truthy [memory]. *)
Definition memory_parts (memory : pydict) : PyResult (list string) :=
  prefs <- joined_part memory "preferences" "User preferences: " ;;
  emo <- (if truthy (dict_get memory "emotional_patterns") then
            v <- getitem memory "emotional_patterns" ;;
            Return ["Emotional patterns: " ++ str py_repr v]
          else Return []) ;;
  fcts <- joined_part memory "facts" "Key facts: " ;;
  Return (prefs ++ emo ++ fcts)%list.

Definition memory_context (memory : option pydict) : PyResult string :=
  match memory with
  | None => Return EmptyString
  | Some memory =>
      if truthy (PDict memory) then
        memory_parts <- memory_parts memory ;;
        Return (match memory_parts with
                | [] => EmptyString
                | _ => nl ++ nl ++ "User Context (use this to personalize your response):"
                       ++ nl ++ join nl memory_parts
                end)
      else Return EmptyString
  end.

Definition transform_response
  (self : PersonalityEngine)
  (user_question standard_response personality : string)
  (memory : option pydict) : Prog string :=
  let personality :=
    if negb (has_key personality PERSONALITIES) then "neutral" else personality in
  personality_info <~ lift (getitem PERSONALITIES personality) ;;
  memory_context <~ lift (memory_context memory) ;;
  let prompt user_question standard_response memory_context personality_name :=
    [ (system, system_prompt personality_info);
      (user, user_prompt user_question standard_response memory_context
                         personality_name) ] in
  invoke_or {| client := llm self;
               messages := prompt user_question standard_response memory_context
                                  (name personality_info) |}
            (fun detail => "Error transforming response: " ++ detail).

End Transform.

Definition get_standard_response
  (self : PersonalityEngine) (user_question api_key : string) : Prog string :=
  let llm := {| model := "gpt-4o-mini";
                temperature := 0.5%float;
                LangChain.api_key := api_key |} in
  let prompt question :=
    [ (system, "You are a helpful, neutral AI assistant. Provide clear, informative responses without any particular personality style.");
      (user, question) ] in
  invoke_or {| client := llm; messages := prompt user_question |}
            (fun detail => "Error generating response: " ++ detail).

End Personality.

(** ** The behaviour the specification describes

    Definitions written from the specification's wording, over well-shaped
    records, against which the code above is compared. *)

Module Reference.
Import Py LangChain.

(** "Message N: <text>". *)
Definition labelled_line (n : nat) (msg : string) : string :=
  "Message " ++ str_of_nat n ++ ": " ++ msg.

(** The one request [extract_memory] issues. *)
Definition extraction_request (self : Memory.MemoryExtractor) (chat_lines : list string)
  : Request :=
  {| client := Memory.llm self;
     messages :=
       [ (system, Memory.system_prompt);
         (user, Memory.user_prompt (str_of_nat (List.length chat_lines))
                                   (Memory.chat_history chat_lines)
                                   (get_format_instructions (Memory.parser self))) ] |}.

(** The record returned on failure. *)
Definition degraded_record : Memory.MemoryRecord :=
  {| Memory.preferences := [];
     Memory.emotional_patterns := "Neutral (Extraction failed, using default)";
     Memory.facts := [] |}.

Definition empty_record : Memory.MemoryRecord :=
  {| Memory.preferences := [];
     Memory.emotional_patterns := EmptyString;
     Memory.facts := [] |}.

Definition memory_keys : list string := ["preferences"; "emotional_patterns"; "facts"].

(** The per-key default. *)
Definition default_of (key : string) : pyval :=
  if String.eqb key "emotional_patterns"
  then PStr "No clear patterns detected."
  else PList [].

(** The shape the JSON contract gives each key: an array of strings for
    [preferences] and [facts], a string for [emotional_patterns]. *)
Definition is_str (v : pyval) : bool :=
  match v with
  | PStr _ => true
  | _ => false
  end.

Definition well_shaped (key : string) (v : pyval) : bool :=
  if String.eqb key "emotional_patterns" then is_str v
  else match v with
       | PList l => forallb is_str l
       | _ => false
       end.

(** Substitution of defaults as the specification words it: for a key that
    is absent or of the wrong shape. *)
Definition checked_field (response : pydict) (key : string) : pyval :=
  match lookup key response with
  | Some v => if well_shaped key v then v else default_of key
  | None => default_of key
  end.

Definition checked_record (response : pydict) : pydict :=
  map (fun key => (key, checked_field response key)) memory_keys.

(** What the code does with the provider's answer. *)
Definition record_of_outcome (self : Memory.MemoryExtractor) (o : Outcome) : pydict :=
  match o with
  | Failed _ => Memory.fallback
  | Content c =>
      match parse (Memory.parser self) c with
      | Return (PDict d) =>
          map (fun key => (key, dict_get_default d key (default_of key))) memory_keys
      | _ => Memory.fallback
      end
  end.

Definition is_nil {A} (l : list A) : bool :=
  match l with
  | [] => true
  | _ => false
  end.

Definition is_empty (s : string) : bool :=
  match s with
  | EmptyString => true
  | _ => false
  end.

(** A section of the summary: a header and one bullet per item, for a
    non-empty field only. *)
Definition bullets (header : string) (items : list string) : list string :=
  if is_nil items then [] else header :: map (fun x => "- " ++ x) items.

Definition emotional_section (emo : string) : list string :=
  if is_empty emo then [] else [nl ++ "**Emotional Patterns:** " ++ emo].

Definition summary_sections (r : Memory.MemoryRecord) : list string :=
  (bullets "**User Preferences:**" (Memory.preferences r) ++
   emotional_section (Memory.emotional_patterns r) ++
   bullets (nl ++ "**Key Facts:**") (Memory.facts r))%list.

(** A sub-part of the memory block: the label and at most the first three
    items, comma-joined, for a non-empty field only. *)
Definition first_three (label : string) (items : list string) : list string :=
  if is_nil items then [] else [label ++ join ", " (firstn 3 items)].

Definition emotional_part (emo : string) : list string :=
  if is_empty emo then [] else ["Emotional patterns: " ++ emo].

Definition block_parts (r : Memory.MemoryRecord) : list string :=
  (first_three "User preferences: " (Memory.preferences r) ++
   emotional_part (Memory.emotional_patterns r) ++
   first_three "Key facts: " (Memory.facts r))%list.

Definition block_header : string :=
  nl ++ nl ++ "User Context (use this to personalize your response):" ++ nl.

Definition memory_block (memory : option Memory.MemoryRecord) : string :=
  match memory with
  | None => EmptyString
  | Some r =>
      match block_parts r with
      | [] => EmptyString
      | parts => block_header ++ join nl parts
      end
  end.

(** The catalog entry a personality identifier selects. *)
Definition neutral_info : Personality.PersonalityInfo :=
  {| Personality.name := "Standard AI";
     Personality.description := "Neutral, professional assistant";
     Personality.traits := "neutral, professional, informative, straightforward" |}.

Definition catalog_entry (personality_id : string) : Personality.PersonalityInfo :=
  match lookup personality_id Personality.PERSONALITIES with
  | Some info => info
  | None => neutral_info
  end.

(** The one request [transform_response] issues, given the memory block. *)
Definition transformation_request
  (self : Personality.PersonalityEngine)
  (question standard_response personality_id block : string) : Request :=
  let info := catalog_entry personality_id in
  {| client := Personality.llm self;
     messages :=
       [ (system, Personality.system_prompt info);
         (user, Personality.user_prompt question standard_response block
                                        (Personality.name info)) ] |}.

(** The client and the request of [get_standard_response]. *)
Definition baseline_client (api_key : string) : ChatOpenAI :=
  {| model := "gpt-4o-mini"; temperature := 0.5%float; LangChain.api_key := api_key |}.

Definition baseline_request (question api_key : string) : Request :=
  {| client := baseline_client api_key;
     messages :=
       [ (system, "You are a helpful, neutral AI assistant. Provide clear, informative responses without any particular personality style.");
         (user, question) ] |}.

End Reference.

(** ** Concrete collaborators, for examples *)

Module Demo.
Import Py LangChain.

Definition repr : pyval -> string := fun _ => "<repr>".

(** A parser that decodes every reply to [reply]. *)
Definition parser_giving (reply : PyResult pyval) : JsonOutputParser :=
  {| parse := fun _ => reply;
     get_format_instructions := "Return a JSON object." |}.

Definition extractor (reply : PyResult pyval) : Memory.MemoryExtractor :=
  {| Memory.llm := {| model := "gpt-4o-mini"; temperature := 0.3%float;
                      api_key := "sk-demo" |};
     Memory.parser := parser_giving reply |}.

Definition engine : Personality.PersonalityEngine :=
  {| Personality.llm := {| model := "gpt-4o"; temperature := 0.7%float;
                           api_key := "sk-demo" |} |}.

Definition failing (detail : string) : Provider := fun _ => Failed detail.
Definition replying (content : string) : Provider := fun _ => Content content.

Definition chat_lines : list string :=
  ["I love dark mode"; "My deadline is Friday"; "I get anxious before demos"].

End Demo.

(** ** More of [str]: whitespace, [strip], [split] *)

Module PyStr.

(** [c.isspace()] for a character below U+0100. *)
Definition isspace (c : ascii) : bool :=
  let n := nat_of_ascii c in
  (((9 <=? n) && (n <=? 13)) || ((28 <=? n) && (n <=? 32)) || (n =? 133) || (n =? 160))%nat.

(** [s.lstrip()], [s.rstrip()] and [s.strip()]. *)
Fixpoint lstrip (s : string) : string :=
  match s with
  | EmptyString => EmptyString
  | String c s' => if isspace c then lstrip s' else s
  end.

Fixpoint rstrip (s : string) : string :=
  match s with
  | EmptyString => EmptyString
  | String c s' =>
      match rstrip s' with
      | EmptyString => if isspace c then EmptyString else String c EmptyString
      | r => String c r
      end
  end.

Definition strip (s : string) : string := rstrip (lstrip s).

(** [s.split(sep)] for a separator of one character: one piece more than
    there are separators, so never the empty list. *)
Fixpoint split (sep : ascii) (s : string) : list string :=
  match s with
  | EmptyString => [EmptyString]
  | String c s' =>
      if Ascii.eqb c sep then EmptyString :: split sep s'
      else match split sep s' with
           | piece :: pieces => String c piece :: pieces
           | [] => [String c EmptyString]
           end
  end.

Definition newline : ascii := ascii_of_nat 10.

(** [bool(s)] for a [str]. *)
Definition nonempty (s : string) : bool :=
  match s with
  | EmptyString => false
  | _ => true
  end.

(** [c in s]. *)
Fixpoint mem (c : ascii) (s : string) : bool :=
  match s with
  | EmptyString => false
  | String c' s' => Ascii.eqb c' c || mem c s'
  end.



End PyStr.

(** ** app.py

    One run of the Streamlit script: from the session state and the values
    the widgets return to the new session state, what the run put on the
    page, and how it ended.  Headings, layout and the fixed explanatory text
    shown on every run are not recorded; every message, caption and piece of
    data whose display depends on the state or the inputs is.  Characters
    outside ASCII in the literals are held as their UTF-8 bytes. *)

Module App.
Import Py LangChain PyStr.

Record SessionState : Type := {
  memory : option pydict;
  chat_messages : list string
}.

(** [st.session_state] before the script has touched it: a key may be
    missing. *)
Record RawSession : Type := {
  raw_memory : option (option pydict);
  raw_chat_messages : option (list string)
}.

(** The top of the script: defaults for the keys that are missing. *)
Definition initialize (raw : RawSession) : SessionState :=
  {| memory := match raw_memory raw with
               | None => None
               | Some m => m
               end;
     chat_messages := match raw_chat_messages raw with
                      | None => []
                      | Some l => l
                      end |}.

(** What a run puts on the page. *)
Inductive Element : Type :=
| success (body : string)
| warning (body : string)
| error (body : string)
| info (body : string)
| caption (body : string)
| subheader (body : string)
| markdown (body : pyval)
| json (body : option pydict).

(** How a run ends early: [st.stop()], [st.rerun()], or an exception nothing
    catches. *)
Inductive Halt : Type :=
| stop
| rerun
| uncaught (e : Exn).

Record World : Type := {
  session : SessionState;
  page : list Element
}.

Inductive Step (A : Type) : Type :=
| Next (a : A) (w : World)
| Halted (h : Halt) (w : World).
Arguments Next {A} a w.
Arguments Halted {A} h w.

(** A piece of the script: it may read and write the session state, add to
    the page, call the provider, and end the run. *)
Definition Script (A : Type) : Type := World -> Prog (Step A).

Definition pure {A} (a : A) : Script A := fun w => ret (Next a w).

Definition bindS {A B} (m : Script A) (f : A -> Script B) : Script B :=
  fun w =>
    step <~ m w ;;
    match step with
    | Next a w' => f a w'
    | Halted h w' => ret (Halted h w')
    end.

Notation "x <== m ;; k" := (bindS m (fun x => k))
  (at level 61, m at next level, right associativity).
Notation "m ;;; k" := (bindS m (fun _ => k))
  (at level 61, right associativity).

Definition halt {A} (h : Halt) : Script A := fun w => ret (Halted h w).

(** [st.success(..)], [st.markdown(..)] and the like. *)
Definition show (e : Element) : Script unit :=
  fun w => ret (Next tt {| session := session w; page := (page w ++ [e])%list |}).

Definition get_memory : Script (option pydict) :=
  fun w => ret (Next (memory (session w)) w).

Definition get_chat_messages : Script (list string) :=
  fun w => ret (Next (chat_messages (session w)) w).

Definition set_memory (m : option pydict) : Script unit :=
  fun w => ret (Next tt {| session := {| memory := m;
                                         chat_messages := chat_messages (session w) |};
                           page := page w |}).

Definition set_chat_messages (l : list string) : Script unit :=
  fun w => ret (Next tt {| session := {| memory := memory (session w);
                                         chat_messages := l |};
                           page := page w |}).

(** An expression that may raise. *)
Definition eval {A} (r : PyResult A) : Script A :=
  fun w =>
    match r with
    | Return a => ret (Next a w)
    | Raise e => ret (Halted (uncaught e) w)
    end.

(** A method call that may reach the provider. *)
Definition call {A} (m : Prog A) : Script A :=
  fun w =>
    try_except (a <~ m ;; ret (Next a w))
               (fun e => ret (Halted (uncaught e) w)).

(** [try: body except Exception as e: handler(e)]: what the body did before
    it raised stays done; [st.stop()] and [st.rerun()] are not caught. *)
Definition try_ (body : Script unit) (handler : Exn -> Script unit) : Script unit :=
  fun w =>
    step <~ body w ;;
    match step with
    | Halted (uncaught e) w' => handler e w'
    | other => ret other
    end.

Definition when (b : bool) (body : Script unit) : Script unit :=
  if b then body else pure tt.

(** [for x in l: body(x)]. *)
Fixpoint for_each {A} (l : list A) (body : A -> Script unit) : Script unit :=
  match l with
  | [] => pure tt
  | x :: l' => body x ;;; for_each l' body
  end.

(** [bool(memory)] for the session's memory. *)
Definition has_memory (m : option pydict) : bool :=
  match m with
  | None => false
  | Some d => truthy (PDict d)
  end.

Definition nonempty_list {A} (l : list A) : bool :=
  match l with
  | [] => false
  | _ => true
  end.

(** The values the widgets and the sample file give to one run. *)
Record Inputs : Type := {
  secrets_key : string;            (* st.secrets.get("OPENAI_API_KEY", ..), or the empty string *)
  key_input : string;              (* the password field *)
  selected_personality : string;   (* the select box *)
  extract_clicked : bool;
  sample_chats : list string;      (* load_sample_chats() *)
  load_clicked : bool;
  clear_clicked : bool;
  chat_input : option string;      (* the text area: None when left as shown *)
  save_clicked : bool;
  user_question : string
}.

Definition personality_options : list (string * string) :=
  [ ("neutral", "Standard AI (Neutral)");
    ("calm_mentor", "Calm Mentor");
    ("witty_friend", "Witty Friend");
    ("therapist_style", "Therapist-Style") ].

(** The list comprehension of the Save button. *)
Definition saved_messages (chat_input : string) : list string :=
  map strip (filter (fun msg => nonempty (strip msg)) (split newline chat_input)).

(** The text the text area shows. *)
Definition text_area_value (chat_messages : list string) : string :=
  join nl chat_messages.

Section Main.

Variable py_repr : pyval -> string.

(** [str(e)]. *)
Variable exn_str : Exn -> string.

Variable JsonOutputParser_new : JsonOutputParser.

(** The sidebar down to the key check: the key the run works with. *)
Definition sidebar_key (i : Inputs) : Script string :=
  let api_key_from_secrets := secrets_key i in
  api_key <== (if nonempty api_key_from_secrets then
                 show (success "✅ API key loaded from Secrets (Streamlit Cloud)") ;;;
                 pure api_key_from_secrets
               else pure (key_input i)) ;;
  (if negb (nonempty api_key) then
     show (warning "⚠️ Please enter your OpenAI API key to use this app.") ;;;
     show (info "💡 On Streamlit Cloud: Add your key in App Settings → Secrets") ;;;
     halt stop
   else pure tt) ;;;
  pure api_key.

(** The Extract button. *)
Definition extract_button (api_key : string) : Script unit :=
  chat_messages <== get_chat_messages ;;
  if nonempty_list chat_messages then
    try_ (extractor <== eval (Memory.__init__ JsonOutputParser_new (Some api_key) None) ;;
          chat_messages <== get_chat_messages ;;
          memory <== call (Memory.extract_memory extractor chat_messages) ;;
          set_memory (Some memory) ;;;
          show (success "✅ Memory extracted successfully!"))
         (fun e => show (error ("Error extracting memory: " ++ exn_str e)))
  else show (warning "Please add chat messages first!").

(** The first tab: sample, clear and save. *)
Definition chat_input_tab (i : Inputs) : Script unit :=
  let sample_chats := sample_chats i in
  when (nonempty_list sample_chats)
    (when (load_clicked i)
       (set_chat_messages sample_chats ;;; halt rerun)) ;;;
  when (clear_clicked i)
    (set_chat_messages [] ;;; set_memory None ;;; halt rerun) ;;;
  shown <== get_chat_messages ;;
  let chat_input := match chat_input i with
                    | Some typed => typed
                    | None => text_area_value shown
                    end in
  when (save_clicked i)
    (let messages := saved_messages chat_input in
     set_chat_messages messages ;;;
     show (success ("✅ Saved " ++ str_of_nat (List.length messages) ++ " messages!")) ;;;
     halt rerun) ;;;
  chat_messages <== get_chat_messages ;;
  when (nonempty_list chat_messages)
    (show (info ("📊 Currently loaded: **" ++ str_of_nat (List.length chat_messages)
                 ++ "** messages"))).

(** One column of the second tab that lists a field. *)
Definition bullet_column (memory : pydict) (key absent : string) : Script unit :=
  if truthy (dict_get memory key) then
    v <== eval (getitem memory key) ;;
    items <== eval (iter v) ;;
    for_each items (fun item => show (markdown (PStr ("- " ++ str py_repr item))))
  else show (info absent).

(** The second tab: the memory on display. *)
Definition memory_tab : Script unit :=
  session_memory <== get_memory ;;
  if has_memory session_memory then
    match session_memory with
    | Some memory =>
        bullet_column memory "preferences" "No preferences extracted yet." ;;;
        (if truthy (dict_get memory "emotional_patterns") then
           v <== eval (getitem memory "emotional_patterns") ;;
           show (markdown v)
         else show (info "No emotional patterns detected.")) ;;;
        bullet_column memory "facts" "No facts extracted yet." ;;;
        show (json session_memory)
    | None => pure tt
    end
  else show (info "👆 Go to 'Chat Input' tab, add messages, and click 'Extract Memory' in the sidebar.").

(** The third tab: the answer before and after. *)
Definition comparison_tab (i : Inputs) (api_key : string) : Script unit :=
  let user_question := user_question i in
  let selected_personality := selected_personality i in
  if nonempty user_question then
    if negb (nonempty api_key) then
      show (error "Please enter your OpenAI API key in the sidebar.")
    else
      try_ (engine <== eval (Personality.__init__ (Some api_key) None) ;;
            standard_response <==
              call (Personality.get_standard_response engine user_question api_key) ;;
            show (markdown (PStr standard_response)))
           (fun e => show (error ("Error: " ++ exn_str e))) ;;;
      personality_info <== eval (getitem Personality.PERSONALITIES selected_personality) ;;
      let personality_name := Personality.name personality_info in
      show (subheader ("🎭 " ++ personality_name ++ " Response")) ;;;
      session_memory <== get_memory ;;
      (if has_memory session_memory then
         show (caption "✨ Using extracted memory for personalization")
       else show (caption "⚠️ No memory extracted yet (using personality only)")) ;;;
      try_ (engine <== eval (Personality.__init__ (Some api_key) None) ;;
            standard_response <==
              call (Personality.get_standard_response engine user_question api_key) ;;
            session_memory <== get_memory ;;
            transformed_response <==
              call (Personality.transform_response py_repr engine user_question
                      standard_response selected_personality session_memory) ;;
            show (markdown (PStr transformed_response)))
           (fun e => show (error ("Error: " ++ exn_str e))) ;;;
      session_memory <== get_memory ;;
      when (has_memory session_memory) (show (json session_memory))
  else show (info "👆 Enter a question above to see the before/after comparison.").

Definition main (i : Inputs) : Script unit :=
  api_key <== sidebar_key i ;;
  label <== eval (getitem personality_options (selected_personality i)) ;;
  show (info ("Selected: **" ++ label ++ "**")) ;;;
  when (extract_clicked i) (extract_button api_key) ;;;
  chat_input_tab i ;;;
  memory_tab ;;;
  comparison_tab i api_key.

(** The whole script, from the raw session state and an empty page. *)
Definition script (raw : RawSession) (i : Inputs) : Prog (Step unit) :=
  main i {| session := initialize raw; page := [] |}.

End Main.

End App.

(** ** What the properties of app.py are stated with *)

Module AppReference.
Import Py LangChain PyStr App Reference.

Definition app_extractor (JsonOutputParser_new : JsonOutputParser) (api_key : string)
  : Memory.MemoryExtractor :=
  {| Memory.llm := {| model := "gpt-4o-mini"; temperature := 0.3%float;
                      LangChain.api_key := api_key |};
     Memory.parser := JsonOutputParser_new |}.

Definition app_engine (api_key : string) : Personality.PersonalityEngine :=
  {| Personality.llm := {| model := "gpt-4o-mini"; temperature := 0.7%float;
                           LangChain.api_key := api_key |} |}.

(** The state and the page a step leaves. *)
Definition world_of {A} (s : Step A) : World :=
  match s with
  | Next _ w => w
  | Halted _ w => w
  end.

Definition halted {A} (s : Step A) : option Halt :=
  match s with
  | Next _ _ => None
  | Halted h _ => Some h
  end.

(** A truthy value that [for] cannot go through: a number other than zero,
    or [True]. *)
Definition unlistable (v : pyval) : bool :=
  truthy v && match iter v with
              | Return _ => false
              | Raise _ => true
              end.

(** What an operation of the engine returns for the provider's answer. *)
Definition answer_or (prefix : string) (o : Outcome) : string :=
  match o with
  | Content c => c
  | Failed detail => prefix ++ detail
  end.

(** What the third tab shows before the transformed answer. *)
Definition comparison_head (standard : string) (info : Personality.PersonalityInfo)
  (stored : option pydict) : list Element :=
  [ markdown (PStr standard);
    subheader ("🎭 " ++ Personality.name info ++ " Response");
    if has_memory stored
    then caption "✨ Using extracted memory for personalization"
    else caption "⚠️ No memory extracted yet (using personality only)" ].

Definition comparison_tail (stored : option pydict) : list Element :=
  if has_memory stored then [json stored] else [].

(** Every request a computation can issue, whatever the provider answers,
    satisfies [P]. *)
Fixpoint always {A} (P : Request -> Prop) (m : Prog A) : Prop :=
  match m with
  | Done _ => True
  | Invoke req k => P req /\ forall o, always P (k o)
  end.

(** A computation issues at most [n] requests, whatever the provider
    answers. *)
Fixpoint within {A} (n : nat) (m : Prog A) {struct m} : Prop :=
  match m with
  | Done _ => True
  | Invoke _ k =>
      match n with
      | 0 => False
      | S n' => forall o, within n' (k o)
      end
  end.

(** The requests of a run that works with [key]. *)
Definition with_key (key : string) (req : Request) : Prop :=
  api_key (client req) = key /\ model (client req) = "gpt-4o-mini".

(** The key a run works with. *)
Definition effective_key (i : Inputs) : string :=
  if nonempty (secrets_key i) then secrets_key i else key_input i.

(** What the second tab shows for a field that lists items. *)
Definition column (items : list string) (absent : string) : list Element :=
  match items with
  | [] => [info absent]
  | _ => map (fun x => markdown (PStr ("- " ++ x))) items
  end.

Definition memory_page (r : Memory.MemoryRecord) : list Element :=
  (column (Memory.preferences r) "No preferences extracted yet." ++
   (if is_empty (Memory.emotional_patterns r)
    then [info "No emotional patterns detected."]
    else [markdown (PStr (Memory.emotional_patterns r))]) ++
   column (Memory.facts r) "No facts extracted yet." ++
   [json (Some (Memory.to_dict r))])%list.

(** The same, in a form that computes once the first part is known. *)
Definition then_run {A B} (p : Provider) (first : PyResult (Step A) * list Request)
  (f : A -> Script B) : PyResult (Step B) * list Request :=
  match first with
  | (Return (Next a w'), t) => let (r, t') := run p (f a w') in (r, (t ++ t')%list)
  | (Return (Halted h w'), t) => (Return (Halted h w'), t)
  | (Raise e, t) => (Raise e, t)
  end.

Definition catch_run (p : Provider) (first : PyResult (Step unit) * list Request)
  (handler : Exn -> Script unit) : PyResult (Step unit) * list Request :=
  match first with
  | (Return (Halted (uncaught e) w'), t) =>
      let (r, t') := run p (handler e w') in (r, (t ++ t')%list)
  | other => other
  end.

Definition call_run {A} (first : PyResult A * list Request) (w : World)
  : PyResult (Step A) * list Request :=
  match first with
  | (Return a, t) => (Return (Next a w), t)
  | (Raise e, t) => (Return (Halted (uncaught e) w), t)
  end.

End AppReference.

(** ** Concrete runs, for examples *)

Module AppDemo.
Import Py LangChain App.

Definition exn_str : Exn -> string := fun _ => "<exception>".

Definition parser : JsonOutputParser :=
  Demo.parser_giving (Return (PDict [("preferences", PInt 5)])).

Definition raw : RawSession :=
  {| raw_memory := None; raw_chat_messages := Some Demo.chat_lines |}.

Definition inputs : Inputs :=
  {| secrets_key := EmptyString;
     key_input := "sk-demo";
     selected_personality := "witty_friend";
     extract_clicked := true;
     sample_chats := [];
     load_clicked := false;
     clear_clicked := false;
     chat_input := None;
     save_clicked := false;
     user_question := "How do I fix this bug?" |}.


(** The same run with nothing in the key field. *)
Definition keyless_inputs : Inputs :=
  {| secrets_key := EmptyString;
     key_input := EmptyString;
     selected_personality := "witty_friend";
     extract_clicked := true;
     sample_chats := [];
     load_clicked := false;
     clear_clicked := false;
     chat_input := None;
     save_clicked := false;
     user_question := "How do I fix this bug?" |}.

Definition world (stored : option pydict) : World :=
  {| session := {| memory := stored; chat_messages := Demo.chat_lines |};
     page := [] |}.

Definition record : Memory.MemoryRecord :=
  {| Memory.preferences := ["dark mode"; "short answers"];
     Memory.emotional_patterns := "anxious before deadlines";
     Memory.facts := ["deadline Friday"] |}.

Definition witty_friend : Personality.PersonalityInfo :=
  {| Personality.name := "Witty Friend";
     Personality.description := "Casual, humorous, and relatable";
     Personality.traits := "casual, humorous, uses slang and jokes, relatable, friendly banter, light-hearted" |}.

End AppDemo.

(** * Properties *)

Module StringFacts.

Lemma append_assoc (a b c : string) : (a ++ b) ++ c = a ++ b ++ c.
Proof. induction a as [|x a IH]; simpl; [reflexivity | now rewrite IH]. Qed.





End StringFacts.

Module RunFacts.
Import Py LangChain.

Lemma run_Invoke {A} (p : Provider) (req : Request) (k : Outcome -> Prog A) :
  run p (Invoke req k) = (fst (run p (k (p req))), req :: snd (run p (k (p req)))).
Proof. simpl. now destruct (run p (k (p req))). Qed.

Lemma run_invoke_or (p : Provider) (req : Request) (handler : string -> string) :
  run p (invoke_or req handler) =
  (Return (match p req with
           | Content c => c
           | Failed detail => handler detail
           end), [req]).
Proof. unfold invoke_or. rewrite run_Invoke. now destruct (p req). Qed.

End RunFacts.

Module MemoryProps.
Import Py LangChain Reference.

(** The labelled lines, in order. *)
Lemma nth_error_labelled (chat_lines : list string) (start i : nat) (msg : string) :
  nth_error chat_lines i = Some msg ->
  nth_error (map (fun im => "Message " ++ str_of_nat (fst im + 1) ++ ": " ++ snd im)
                 (Memory.enumerate_from start chat_lines)) i
  = Some (labelled_line (start + i + 1) msg).
Proof.
  revert start i.
  induction chat_lines as [|m ms IH]; intros start i H.
  - now destruct i.
  - destruct i as [|i]; simpl in *.
    + injection H as ->. now rewrite Nat.add_0_r.
    + rewrite IH with (1 := H). do 2 f_equal. lia.
Qed.

Lemma length_enumerate_from {A} (l : list A) (start : nat) :
  List.length (Memory.enumerate_from start l) = List.length l.
Proof. revert start. induction l; intros; simpl; [reflexivity | now rewrite IHl]. Qed.

(** Whatever the provider answers, [extract_memory] issues its one request
    and returns the record the answer determines. *)
Lemma run_extract_memory (self : Memory.MemoryExtractor) (chat_lines : list string)
  (p : Provider) :
  run p (Memory.extract_memory self chat_lines)
  = (Return (record_of_outcome self (p (extraction_request self chat_lines))),
     [extraction_request self chat_lines]).
Proof.
  unfold Memory.extract_memory, invoke. cbn [bindP try_except].
  rewrite RunFacts.run_Invoke.
  fold (extraction_request self chat_lines).
  destruct (p (extraction_request self chat_lines)) as [detail|c]; cbn.
  - reflexivity.
  - destruct (parse (Memory.parser self) c) as [[| | | | |l|d]|e]; reflexivity.
Qed.

(** C9: the chat lines are labelled "Message N: <text>" with N counting from
    1, kept in their order and joined by newlines (nothing for the empty
    sequence); the single request carries, in its user message, the number of
    lines and this context between fixed pieces of text. *)
Theorem extract_memory_context (self : Memory.MemoryExtractor) :
  exists before between after : string,
  forall (chat_lines : list string) (p : Provider),
    snd (run p (Memory.extract_memory self chat_lines))
    = [ {| client := Memory.llm self;
           messages :=
             [ (system, Memory.system_prompt);
               (user, before ++ str_of_nat (List.length chat_lines) ++ between
                      ++ Memory.chat_history chat_lines ++ after) ] |} ] /\
    exists lines : list string,
      Memory.chat_history chat_lines = join nl lines /\
      List.length lines = List.length chat_lines /\
      forall (i : nat) (msg : string),
        nth_error chat_lines i = Some msg ->
        nth_error lines i = Some (labelled_line (i + 1) msg).
Proof.
  exists "Analyze these ".
  exists (" chat messages and extract the structured information:" ++ nl ++ nl).
  exists (nl ++ nl ++
          text [ "Return your analysis as a JSON object with exactly these keys:";
                 "- " ++ dq ++ "preferences" ++ dq
                   ++ ": array of strings (each preference as a separate item)";
                 "- " ++ dq ++ "emotional_patterns" ++ dq
                   ++ ": string (description of emotional patterns observed)";
                 "- " ++ dq ++ "facts" ++ dq
                   ++ ": array of strings (each fact as a separate item)";
                 EmptyString;
                 get_format_instructions (Memory.parser self) ]).
  intros chat_lines p. split.
  - rewrite run_extract_memory. cbn [snd]. unfold extraction_request.
    do 4 f_equal. unfold Memory.user_prompt, text, join.
    cbn [String.concat].
    rewrite !StringFacts.append_assoc. reflexivity.
  - exists (map (fun im => "Message " ++ str_of_nat (fst im + 1) ++ ": " ++ snd im)
                (Memory.enumerate chat_lines)).
    split; [reflexivity|]. split.
    + rewrite length_map. apply length_enumerate_from.
    + intros i msg H. unfold Memory.enumerate.
      now apply nth_error_labelled with (start := 0).
Qed.

(** C1: when the provider call fails, or the reply cannot be parsed, the
    result is the record with empty preferences and facts and the text
    "Neutral (Extraction failed, using default)"; it is returned, not raised. *)
Theorem extract_memory_failure
  (self : Memory.MemoryExtractor) (chat_lines : list string) (p : Provider) :
  (exists detail, p (extraction_request self chat_lines) = Failed detail) \/
  (exists content e,
     p (extraction_request self chat_lines) = Content content /\
     parse (Memory.parser self) content = Raise e) ->
  run p (Memory.extract_memory self chat_lines)
  = (Return (Memory.to_dict degraded_record), [extraction_request self chat_lines]).
Proof.
  intros H. rewrite run_extract_memory. f_equal. f_equal.
  destruct H as [[detail ->] | (content & e & -> & Hparse)]; cbn.
  - reflexivity.
  - now rewrite Hparse.
Qed.

Lemma extract_memory_failure_witness :
  run (Demo.failing "connection refused")
      (Memory.extract_memory (Demo.extractor (Return PNone)) Demo.chat_lines)
  = (Return (Memory.to_dict degraded_record),
     [extraction_request (Demo.extractor (Return PNone)) Demo.chat_lines]) /\
  run (Demo.replying "not json")
      (Memory.extract_memory (Demo.extractor (Raise (OutputParserException "Invalid json output: not json"))) [])
  = (Return (Memory.to_dict degraded_record),
     [extraction_request (Demo.extractor (Raise (OutputParserException "Invalid json output: not json"))) []]).
Proof.
  split.
  - apply extract_memory_failure. left. exists "connection refused". reflexivity.
  - apply extract_memory_failure. right.
    exists "not json", (OutputParserException "Invalid json output: not json").
    split; reflexivity.
Defined.

Lemma lookup_memory_keys (f : string -> pyval) (key : string) :
  In key memory_keys ->
  lookup key (map (fun key => (key, f key)) memory_keys) = Some (f key).
Proof.
  intros [<- | [<- | [<- | []]]]; reflexivity.
Qed.

(** C2, as the code has it: when the reply parses to a JSON object, the
    returned record has exactly the three keys; a key the object lacks gets
    its default (an empty list, or "No clear patterns detected."), and a key
    the object has keeps its value, whatever the shape of that value. *)
Theorem extract_memory_object
  (self : Memory.MemoryExtractor) (chat_lines : list string) (p : Provider)
  (content : string) (response : pydict) :
  p (extraction_request self chat_lines) = Content content ->
  parse (Memory.parser self) content = Return (PDict response) ->
  exists memory : pydict,
    run p (Memory.extract_memory self chat_lines)
    = (Return memory, [extraction_request self chat_lines]) /\
    map fst memory = memory_keys /\
    forall key, In key memory_keys ->
      lookup key memory = Some (match lookup key response with
                                | Some v => v
                                | None => default_of key
                                end).
Proof.
  intros Hp Hparse.
  exists (map (fun key => (key, dict_get_default response key (default_of key)))
              memory_keys).
  split; [|split].
  - rewrite run_extract_memory, Hp. cbn. now rewrite Hparse.
  - reflexivity.
  - intros key Hin.
    now apply lookup_memory_keys
      with (f := fun key => dict_get_default response key (default_of key)).
Qed.

Lemma extract_memory_object_witness :
  exists memory : pydict,
    run (Demo.replying "{}")
        (Memory.extract_memory
           (Demo.extractor (Return (PDict [("facts", PList [PStr "deadline Friday"])])))
           Demo.chat_lines)
    = (Return memory,
       [extraction_request
          (Demo.extractor (Return (PDict [("facts", PList [PStr "deadline Friday"])])))
          Demo.chat_lines]) /\
    map fst memory = memory_keys /\
    forall key, In key memory_keys ->
      lookup key memory
      = Some (match lookup key [("facts", PList [PStr "deadline Friday"])] with
              | Some v => v
              | None => default_of key
              end).
Proof.
  apply extract_memory_object with (content := "{}"); reflexivity.
Defined.

(** C2, against the claim as stated: a present key of the wrong shape is not
    replaced by its default.  Here the reply's "preferences" is a string, and
    the returned record carries that string. *)
Lemma wrong_shape_is_kept :
  ~ (forall (self : Memory.MemoryExtractor) (chat_lines : list string) (p : Provider)
            (content : string) (response : pydict),
       p (extraction_request self chat_lines) = Content content ->
       parse (Memory.parser self) content = Return (PDict response) ->
       fst (run p (Memory.extract_memory self chat_lines))
       = Return (checked_record response)).
Proof.
  intros claim.
  specialize (claim (Demo.extractor (Return (PDict [("preferences", PStr "dark mode")])))
                    [] (Demo.replying "{}") "{}"
                    [("preferences", PStr "dark mode")] eq_refl eq_refl).
  rewrite run_extract_memory in claim. cbn in claim. discriminate claim.
Qed.

End MemoryProps.

Module PyFacts.
Import Py LangChain Reference.

Lemma mapR_as_str (l : list string) : mapR as_str (map PStr l) = Return l.
Proof. induction l as [|s l IH]; cbn; [reflexivity | now rewrite IH]. Qed.

Lemma str_join_strs (sep : string) (l : list string) :
  str_join sep (PList (map PStr l)) = Return (join sep l).
Proof. unfold str_join. cbn. now rewrite mapR_as_str. Qed.

Lemma truthy_strs (l : list string) : truthy (PList (map PStr l)) = negb (is_nil l).
Proof. now destruct l. Qed.

Lemma truthy_str (s : string) : truthy (PStr s) = negb (is_empty s).
Proof. now destruct s. Qed.

Lemma has_key_lookup {V} (k : string) (d : list (string * V)) :
  has_key k d = true -> exists v, lookup k d = Some v.
Proof.
  induction d as [|[k' v] d IH]; cbn; [discriminate|].
  destruct (String.eqb k k'); [now exists v | exact IH].
Qed.

Lemma lookup_truthy (memory : pydict) (key : string) :
  truthy (dict_get memory key) = true ->
  getitem memory key = Return (dict_get memory key).
Proof.
  unfold dict_get, getitem. now destruct (lookup key memory).
Qed.

Lemma mapR_as_str_raises (items : list pyval) (e : Exn) :
  mapR as_str items = Raise e -> e = TypeError.
Proof.
  revert e. induction items as [|v items IH]; cbn; [discriminate|].
  destruct v; cbn; try (intros e [= <-]; reflexivity).
  destruct (mapR as_str items) as [strs|e0]; cbn; [discriminate|].
  intros e [= <-]. now apply IH.
Qed.

Lemma str_join_raises (sep : string) (v : pyval) (e : Exn) :
  str_join sep v = Raise e -> e = TypeError.
Proof.
  unfold str_join.
  destruct (iter v) as [items|e'] eqn:Hiter; cbn.
  - destruct (mapR as_str items) as [strs|e'] eqn:Hs; cbn; [discriminate|].
    intros [= <-]. now apply mapR_as_str_raises with (items := items).
  - intros [= <-]. destruct v; cbn in Hiter; congruence.
Qed.

Lemma slice_to_raises (n : nat) (v : pyval) (e : Exn) :
  slice_to n v = Raise e -> e = TypeError.
Proof. destruct v; cbn; congruence. Qed.

End PyFacts.

Module SummaryProps.
Import Py LangChain Reference.

Section WithRepr.

Variable py_repr : pyval -> string.

Lemma bullet_lines (items : list string) :
  map (fun item => "- " ++ str py_repr item) (map PStr items)
  = map (fun x => "- " ++ x) items.
Proof. now rewrite map_map. Qed.

Lemma summary_parts_record (r : Memory.MemoryRecord) :
  Memory.summary_parts py_repr (Memory.to_dict r) = Return (summary_sections r).
Proof.
  destruct r as [prefs emo fcts].
  unfold Memory.summary_parts, Memory.bullet_section, summary_sections,
    bullets, emotional_section.
  cbn [Memory.to_dict Memory.preferences Memory.emotional_patterns Memory.facts
       dict_get getitem lookup String.eqb Ascii.eqb Bool.eqb].
  rewrite !PyFacts.truthy_strs, PyFacts.truthy_str.
  destruct prefs, emo, fcts; cbn; rewrite ?bullet_lines; reflexivity.
Qed.

Lemma format_memory_summary_record (r : Memory.MemoryRecord) :
  Memory.format_memory_summary py_repr (Memory.to_dict r)
  = Return (match summary_sections r with
            | [] => "No memory extracted yet."
            | parts => join nl parts
            end).
Proof.
  unfold Memory.format_memory_summary.
  rewrite summary_parts_record. cbn [bindR].
  now destruct (summary_sections r).
Qed.

(** C6: on a well-shaped record the summary is always produced; it is the
    sections of the non-empty fields joined by newlines, the text
    "No memory extracted yet." when every field is empty, and the facts
    section alone when only the facts are populated. *)
Theorem format_memory_summary_sections (r : Memory.MemoryRecord) :
  Memory.summary_parts py_repr (Memory.to_dict r) = Return (summary_sections r) /\
  Memory.format_memory_summary py_repr (Memory.to_dict r)
  = Return (match summary_sections r with
            | [] => "No memory extracted yet."
            | parts => join nl parts
            end) /\
  Memory.format_memory_summary py_repr (Memory.to_dict empty_record)
  = Return "No memory extracted yet." /\
  forall (fact : string) (more : list string),
    let only_facts := {| Memory.preferences := [];
                         Memory.emotional_patterns := EmptyString;
                         Memory.facts := fact :: more |} in
    Memory.summary_parts py_repr (Memory.to_dict only_facts)
    = Return ((nl ++ "**Key Facts:**") :: map (fun x => "- " ++ x) (fact :: more)) /\
    Memory.format_memory_summary py_repr (Memory.to_dict only_facts)
    = Return (join nl ((nl ++ "**Key Facts:**")
                       :: map (fun x => "- " ++ x) (fact :: more))).
Proof.
  split; [apply summary_parts_record|].
  split; [apply format_memory_summary_record|].
  split; [now rewrite format_memory_summary_record|].
  intros fact more only_facts. split.
  - now rewrite summary_parts_record.
  - now rewrite format_memory_summary_record.
Qed.

End WithRepr.

(** The summary of a well-shaped record is a function of the record alone:
    it does not depend on how the interpreter prints other values. *)
Lemma format_memory_summary_pure (repr1 repr2 : pyval -> string)
  (r : Memory.MemoryRecord) :
  Memory.format_memory_summary repr1 (Memory.to_dict r)
  = Memory.format_memory_summary repr2 (Memory.to_dict r).
Proof. now rewrite !format_memory_summary_record. Qed.

(** A section appears exactly when its field is non-empty. *)
Lemma bullets_nil (header : string) (items : list string) :
  bullets header items = [] <-> items = [].
Proof. destruct items; cbn; split; intros H; try reflexivity; discriminate H. Qed.

Lemma emotional_section_nil (emo : string) :
  emotional_section emo = [] <-> emo = EmptyString.
Proof. destruct emo; cbn; split; intros H; try reflexivity; discriminate H. Qed.

End SummaryProps.

Module PersonalityProps.
Import Py LangChain Reference.

(** After validation the catalog lookup always succeeds. *)
Lemma getitem_validated (personality : string) :
  getitem Personality.PERSONALITIES
          (if negb (has_key personality Personality.PERSONALITIES)
           then "neutral" else personality)
  = Return (catalog_entry personality).
Proof.
  unfold catalog_entry, getitem.
  destruct (has_key personality Personality.PERSONALITIES) eqn:Hkey; cbn [negb].
  - destruct (PyFacts.has_key_lookup _ _ Hkey) as [info ->]. reflexivity.
  - assert (Hnone : lookup personality Personality.PERSONALITIES = None).
    { revert Hkey. generalize Personality.PERSONALITIES.
      induction l as [|[k v] l IH]; cbn; [reflexivity|].
      destruct (String.eqb personality k); [discriminate | exact IH]. }
    rewrite Hnone. reflexivity.
Qed.

Section WithRepr.

Variable py_repr : pyval -> string.

Lemma joined_part_raises (memory : pydict) (key label : string) (e : Exn) :
  Personality.joined_part memory key label = Raise e -> e = TypeError.
Proof.
  unfold Personality.joined_part.
  destruct (truthy (dict_get memory key)) eqn:Ht; [|discriminate].
  rewrite (PyFacts.lookup_truthy _ _ Ht). cbn [bindR].
  destruct (slice_to 3 (dict_get memory key)) as [first3|e'] eqn:Hslice; cbn [bindR].
  - destruct (str_join ", " first3) as [joined|e'] eqn:Hjoin; cbn [bindR];
      [discriminate|].
    intros [= <-]. now apply PyFacts.str_join_raises with (1 := Hjoin).
  - intros [= <-]. now apply PyFacts.slice_to_raises with (1 := Hslice).
Qed.

Lemma memory_context_raises (memory : option pydict) (e : Exn) :
  Personality.memory_context py_repr memory = Raise e -> e = TypeError.
Proof.
  destruct memory as [memory|]; cbn [Personality.memory_context]; [|discriminate].
  destruct (truthy (PDict memory)); [|discriminate].
  unfold Personality.memory_parts.
  destruct (Personality.joined_part memory "preferences" _) as [prefs|e1] eqn:H1;
    cbn [bindR]; [|intros [= <-]; now apply joined_part_raises with (1 := H1)].
  destruct (truthy (dict_get memory "emotional_patterns")) eqn:Ht.
  - rewrite (PyFacts.lookup_truthy _ _ Ht). cbn [bindR].
    destruct (Personality.joined_part memory "facts" _) as [fcts|e3] eqn:H3;
      cbn [bindR]; [discriminate|].
    intros [= <-]. now apply joined_part_raises with (1 := H3).
  - cbn [bindR].
    destruct (Personality.joined_part memory "facts" _) as [fcts|e3] eqn:H3;
      cbn [bindR]; [discriminate|].
    intros [= <-]. now apply joined_part_raises with (1 := H3).
Qed.

(** On a well-shaped record the code builds the parts the specification
    lists. *)
Lemma memory_parts_record (r : Memory.MemoryRecord) :
  Personality.memory_parts py_repr (Memory.to_dict r) = Return (block_parts r).
Proof.
  destruct r as [prefs emo fcts].
  unfold Personality.memory_parts, Personality.joined_part, block_parts,
    first_three, emotional_part.
  cbn [Memory.to_dict Memory.preferences Memory.emotional_patterns Memory.facts
       dict_get getitem lookup String.eqb Ascii.eqb Bool.eqb slice_to].
  rewrite !PyFacts.truthy_strs, PyFacts.truthy_str.
  cbn [bindR slice_to]. rewrite !firstn_map, !PyFacts.str_join_strs.
  destruct prefs, emo, fcts; reflexivity.
Qed.

Lemma memory_context_record (memory : option Memory.MemoryRecord) :
  Personality.memory_context py_repr (option_map Memory.to_dict memory)
  = Return (memory_block memory).
Proof.
  destruct memory as [r|]; [|reflexivity].
  cbn [option_map Personality.memory_context].
  change (truthy (PDict (Memory.to_dict r))) with true. cbn iota.
  rewrite memory_parts_record. cbn [bindR memory_block].
  destruct (block_parts r); reflexivity.
Qed.

(** [transform_response] either raises while it folds the memory, before
    any request, or issues one request and returns a string. *)
Lemma run_transform_response
  (self : Personality.PersonalityEngine)
  (question standard_response personality : string) (memory : option pydict)
  (p : Provider) :
  run p (Personality.transform_response py_repr self question standard_response
                                        personality memory)
  = match Personality.memory_context py_repr memory with
    | Return block =>
        let req := transformation_request self question standard_response
                                          personality block in
        (Return (match p req with
                 | Content c => c
                 | Failed detail => "Error transforming response: " ++ detail
                 end), [req])
    | Raise e => (Raise e, [])
    end.
Proof.
  unfold Personality.transform_response.
  rewrite getitem_validated. cbn [lift bindP].
  destruct (Personality.memory_context py_repr memory) as [block|e];
    cbn [lift bindP]; [|reflexivity].
  now rewrite RunFacts.run_invoke_or.
Qed.


(** C4: an identifier that is not a key of the catalog is treated as
    "neutral": the call is the same computation as the call with "neutral",
    it uses the neutral entry, and the catalog lookup never raises. *)
Theorem unknown_personality_is_neutral
  (self : Personality.PersonalityEngine)
  (question standard_response personality : string) (memory : option pydict) :
  has_key personality Personality.PERSONALITIES = false ->
  Personality.transform_response py_repr self question standard_response
                                 personality memory
  = Personality.transform_response py_repr self question standard_response
                                   "neutral" memory /\
  catalog_entry personality = neutral_info /\
  forall p : Provider,
    fst (run p (Personality.transform_response py_repr self question
                  standard_response personality memory))
    <> Raise KeyError.
Proof.
  intros Hkey. split; [|split].
  - unfold Personality.transform_response. rewrite Hkey. reflexivity.
  - generalize (getitem_validated personality). rewrite Hkey. cbn [negb].
    intros H. change (Return neutral_info = Return (catalog_entry personality)) in H.
    now injection H.
  - intros p. rewrite run_transform_response.
    destruct (Personality.memory_context py_repr memory) as [block|e] eqn:Hctx;
      cbn [fst]; [discriminate|].
    rewrite (memory_context_raises _ Hctx). discriminate.
Qed.


(** With a well-shaped memory, or none, the request is always issued. *)
Lemma transform_response_returns
  (self : Personality.PersonalityEngine)
  (question standard_response personality : string)
  (memory : option Memory.MemoryRecord) (p : Provider) :
  exists s,
    fst (run p (Personality.transform_response py_repr self question
                  standard_response personality (option_map Memory.to_dict memory)))
    = Return s.
Proof.
  rewrite run_transform_response, memory_context_record. cbn [fst]. eauto.
Qed.

(** C7, as the code has it: the degraded record shows no preferences and no
    facts, but its emotional-patterns text is shown, which sets it apart
    from the all-empty record. *)
Theorem degraded_record_outputs :
  Memory.fallback = Memory.to_dict degraded_record /\
  Memory.format_memory_summary py_repr Memory.fallback
  = Return (nl ++ "**Emotional Patterns:** Neutral (Extraction failed, using default)") /\
  Personality.memory_context py_repr (Some Memory.fallback)
  = Return (block_header
            ++ "Emotional patterns: Neutral (Extraction failed, using default)") /\
  Memory.format_memory_summary py_repr (Memory.to_dict empty_record)
  = Return "No memory extracted yet." /\
  Personality.memory_context py_repr (Some (Memory.to_dict empty_record))
  = Return EmptyString.
Proof. repeat split. Qed.

End WithRepr.

Lemma unknown_personality_is_neutral_witness :
  Personality.transform_response Demo.repr Demo.engine "How do I fix this bug?"
                                 "Check your logs." "pirate" None
  = Personality.transform_response Demo.repr Demo.engine "How do I fix this bug?"
                                   "Check your logs." "neutral" None /\
  catalog_entry "pirate" = neutral_info /\
  forall p : Provider,
    fst (run p (Personality.transform_response Demo.repr Demo.engine
                  "How do I fix this bug?" "Check your logs." "pirate" None))
    <> Raise KeyError.
Proof.
  apply unknown_personality_is_neutral. reflexivity.
Defined.


(** C7, against the claim as stated: the summary and the memory block of the
    degraded record are not those of the all-empty record. *)
Lemma degraded_record_is_visible :
  ~ (forall py_repr : pyval -> string,
       Memory.format_memory_summary py_repr Memory.fallback
       = Memory.format_memory_summary py_repr (Memory.to_dict empty_record) /\
       Personality.memory_context py_repr (Some Memory.fallback)
       = Personality.memory_context py_repr (Some (Memory.to_dict empty_record))).
Proof.
  intros claim. destruct (claim Demo.repr) as [Hsummary _].
  cbv in Hsummary. discriminate Hsummary.
Qed.




End PersonalityProps.

(** ** The scenarios of the specification, evaluated *)

Module Scenarios.
Import Py LangChain Reference.

Definition scenario_reply : pydict :=
  [ ("preferences", PList [PStr "dark mode"]);
    ("emotional_patterns", PStr "anxious before deadlines");
    ("facts", PList [PStr "deadline Friday"]) ].

Example extract_memory_round_trip :
  fst (run (Demo.replying "{...}")
           (Memory.extract_memory (Demo.extractor (Return (PDict scenario_reply)))
                                  Demo.chat_lines))
  = Return scenario_reply.
Proof. reflexivity. Qed.

Example chat_history_of_three :
  Memory.chat_history Demo.chat_lines
  = text [ "Message 1: I love dark mode";
           "Message 2: My deadline is Friday";
           "Message 3: I get anxious before demos" ].
Proof. reflexivity. Qed.

Example summary_of_scenario :
  Memory.format_memory_summary Demo.repr scenario_reply
  = Return (text [ "**User Preferences:**";
                   "- dark mode";
                   EmptyString;
                   "**Emotional Patterns:** anxious before deadlines";
                   EmptyString;
                   "**Key Facts:**";
                   "- deadline Friday" ]).
Proof. reflexivity. Qed.

Example five_preferences_give_three :
  Personality.memory_context Demo.repr
    (Some (Memory.to_dict {| Memory.preferences := ["a"; "b"; "c"; "d"; "e"];
                             Memory.emotional_patterns := EmptyString;
                             Memory.facts := [] |}))
  = Return (block_header ++ "User preferences: a, b, c").
Proof. reflexivity. Qed.

Example witty_friend_request :
  exists sys usr,
    snd (run (Demo.replying "ok")
             (Personality.transform_response Demo.repr Demo.engine
                "How do I fix this bug?" "Check your logs." "witty_friend" None))
    = [ {| client := Personality.llm Demo.engine;
           messages := [ (system, sys); (user, usr) ] |} ] /\
    contains "Witty Friend" sys = true /\
    contains "How do I fix this bug?" usr = true /\
    contains "Check your logs." usr = true /\
    contains "User Context" usr = false.
Proof. do 2 eexists. split; [reflexivity|]. repeat split; vm_compute; reflexivity. Qed.

(** A wrong-shaped memory makes [transform_response] raise before any
    request: the items joined must be strings. *)
Example ill_shaped_memory_raises :
  run (Demo.replying "ok")
      (Personality.transform_response Demo.repr Demo.engine "q" "a" "neutral"
         (Some [("preferences", PList [PInt 1; PInt 2])]))
  = (Raise TypeError, []).
Proof. reflexivity. Qed.

End Scenarios.

(** * More properties *)

Module SaveProps.
Import Py LangChain PyStr App.



Lemma split_app (sep : ascii) (a b : string) :
  mem sep a = false -> split sep (a ++ String sep b) = a :: split sep b.
Proof.
  induction a as [|c a IH]; cbn; intros H.
  - now rewrite Ascii.eqb_refl.
  - apply orb_false_elim in H as [Hc Ha]. rewrite Hc, IH by exact Ha. reflexivity.
Qed.

Lemma split_one (sep : ascii) (a : string) :
  mem sep a = false -> split sep a = [a].
Proof.
  induction a as [|c a IH]; cbn; intros H; [reflexivity|].
  apply orb_false_elim in H as [Hc Ha]. now rewrite Hc, IH by exact Ha.
Qed.

Lemma split_join (msgs : list string) :
  msgs <> [] ->
  forallb (fun msg => negb (mem newline msg)) msgs = true ->
  split newline (join nl msgs) = msgs.
Proof.
  induction msgs as [|m rest IH]; intros Hne Hall; [now elim Hne|].
  cbn in Hall. apply andb_prop in Hall as [Hm Hrest].
  apply negb_true_iff in Hm.
  destruct rest as [|m2 rest].
  - cbn. now apply split_one.
  - change (join nl (m :: m2 :: rest)) with (m ++ String newline (join nl (m2 :: rest))).
    rewrite split_app by exact Hm. f_equal. apply IH; [discriminate | exact Hrest].
Qed.






















End SaveProps.

Module TraceFacts.
Import Py LangChain App AppReference.

Lemma run_bindP {A B} (p : Provider) (m : Prog A) (f : A -> Prog B) :
  run p (bindP m f)
  = match run p m with
    | (Return a, t) => (fst (run p (f a)), (t ++ snd (run p (f a)))%list)
    | (Raise e, t) => (Raise e, t)
    end.
Proof.
  induction m as [[a|e]|req k IH]; cbn [bindP].
  - cbn. now destruct (run p (f a)).
  - reflexivity.
  - rewrite !RunFacts.run_Invoke, IH.
    destruct (run p (k (p req))) as [[a|e] t]; reflexivity.
Qed.

Lemma run_try_except {A} (p : Provider) (m : Prog A) (h : Exn -> Prog A) :
  run p (try_except m h)
  = match run p m with
    | (Return a, t) => (Return a, t)
    | (Raise e, t) => (fst (run p (h e)), (t ++ snd (run p (h e)))%list)
    end.
Proof.
  induction m as [[a|e]|req k IH]; cbn [try_except].
  - reflexivity.
  - cbn. now destruct (run p (h e)).
  - rewrite !RunFacts.run_Invoke, IH.
    destruct (run p (k (p req))) as [[a|e] t]; reflexivity.
Qed.

(** Sequencing of two pieces of script. *)
Lemma run_bindS {A B} (p : Provider) (m : Script A) (f : A -> Script B) (w : World) :
  run p (bindS m f w)
  = match run p (m w) with
    | (Return (Next a w'), t) => (fst (run p (f a w')), (t ++ snd (run p (f a w')))%list)
    | (Return (Halted h w'), t) => (Return (Halted h w'), (t ++ [])%list)
    | (Raise e, t) => (Raise e, t)
    end.
Proof.
  unfold bindS. rewrite run_bindP.
  destruct (run p (m w)) as [[[a w'|h w']|e] t]; reflexivity.
Qed.

Lemma run_call {A} (p : Provider) (m : Prog A) (w : World) :
  run p (call m w)
  = match run p m with
    | (Return a, t) => (Return (Next a w), t)
    | (Raise e, t) => (Return (Halted (uncaught e) w), t)
    end.
Proof.
  unfold call. rewrite run_try_except, run_bindP.
  destruct (run p m) as [[a|e] t]; cbn; now rewrite ?app_nil_r.
Qed.

Lemma run_try_ (p : Provider) (body : Script unit) (handler : Exn -> Script unit)
  (w : World) :
  run p (try_ body handler w)
  = match run p (body w) with
    | (Return (Halted (uncaught e) w'), t) =>
        (fst (run p (handler e w')), (t ++ snd (run p (handler e w')))%list)
    | other => other
    end.
Proof.
  unfold try_. rewrite run_bindP.
  destruct (run p (body w)) as [[[a w'|[| |e] w']|e] t]; cbn;
    now rewrite ?app_nil_r.
Qed.

Lemma run_then {A B} (p : Provider) (m : Script A) (f : A -> Script B) (w : World) :
  run p (bindS m f w) = then_run p (run p (m w)) f.
Proof.
  rewrite run_bindS. unfold then_run.
  destruct (run p (m w)) as [[[a w'|h w']|e] t]; try reflexivity.
  - now destruct (run p (f a w')).
  - now rewrite app_nil_r.
Qed.

Lemma run_catch (p : Provider) (body : Script unit) (handler : Exn -> Script unit)
  (w : World) :
  run p (try_ body handler w) = catch_run p (run p (body w)) handler.
Proof.
  rewrite run_try_. unfold catch_run.
  destruct (run p (body w)) as [[[a w'|[| |e] w']|e] t]; try reflexivity.
  now destruct (run p (handler e w')).
Qed.

Lemma run_call' {A} (p : Provider) (m : Prog A) (w : World) :
  run p (call m w) = call_run (run p m) w.
Proof. rewrite run_call. unfold call_run. now destruct (run p m) as [[a|e] t]. Qed.

(** Pieces that touch neither the provider nor the control flow. *)
Lemma bindS_show {B} (e : Element) (f : unit -> Script B) (w : World) :
  bindS (show e) f w = f tt {| session := session w; page := (page w ++ [e])%list |}.
Proof. reflexivity. Qed.

Lemma bindS_pure {A B} (a : A) (f : A -> Script B) (w : World) :
  bindS (pure a) f w = f a w.
Proof. reflexivity. Qed.

Lemma bindS_eval {A B} (a : A) (f : A -> Script B) (w : World) :
  bindS (eval (Return a)) f w = f a w.
Proof. reflexivity. Qed.

Lemma bindS_get_memory {B} (f : option pydict -> Script B) (w : World) :
  bindS get_memory f w = f (memory (session w)) w.
Proof. reflexivity. Qed.

Lemma bindS_get_chat_messages {B} (f : list string -> Script B) (w : World) :
  bindS get_chat_messages f w = f (chat_messages (session w)) w.
Proof. reflexivity. Qed.

End TraceFacts.



Module AppProps.
Import Py LangChain PyStr App Reference AppReference.

Section WithCollaborators.

Variable py_repr : pyval -> string.
Variable exn_str : Exn -> string.
Variable JsonOutputParser_new : JsonOutputParser.

(** The extractor the Extract button builds. *)
Lemma extract_button_run (api_key : string) (w : World) (p : Provider) :
  chat_messages (session w) <> [] ->
  run p (extract_button exn_str JsonOutputParser_new api_key w)
  = let extractor := app_extractor JsonOutputParser_new api_key in
    let req := extraction_request extractor (chat_messages (session w)) in
    (Return (Next tt {| session := {| memory := Some (record_of_outcome extractor (p req));
                                      chat_messages := chat_messages (session w) |};
                        page := (page w ++ [success "✅ Memory extracted successfully!"])%list |}),
     [req]).
Proof.
  intros Hne. unfold extract_button.
  destruct w as [[mem msgs] pg]. cbn [session chat_messages page] in *.
  destruct msgs as [|m msgs]; [now elim Hne|].
  cbn [bindS get_chat_messages ret bindP nonempty_list session chat_messages].
  rewrite TraceFacts.run_try_.
  cbn [bindS eval Memory.__init__ required bindR with_default ret bindP
       get_chat_messages session chat_messages].
  rewrite TraceFacts.run_bindS, TraceFacts.run_call, MemoryProps.run_extract_memory.
  reflexivity.
Qed.


(** X13: the first tab never calls the provider, and it keeps the extracted
    memory through Load and Save: only Clear drops it. *)
Theorem chat_input_tab_keeps_memory (i : Inputs) (w : World) (p : Provider) :
  exists step : Step unit,
    run p (chat_input_tab i w) = (Return step, []) /\
    memory (session (world_of step))
    = (if clear_clicked i && negb (nonempty_list (sample_chats i) && load_clicked i)
       then None
       else memory (session w)).
Proof.
  unfold chat_input_tab.
  destruct i as [sk ki sp ec sc lc cc ci sc' uq], w as [[mem msgs] pg].
  cbn [sample_chats load_clicked clear_clicked chat_input save_clicked].
  destruct sc as [|s0 sc], lc, cc, sc'; cbn; try (eexists; split; reflexivity).
  all: destruct msgs; cbn; eexists; split; reflexivity.
Qed.


Lemma for_each_show (items : list pyval) (f : pyval -> Element) (w : World) :
  for_each items (fun item => show (f item)) w
  = ret (Next tt {| session := session w; page := (page w ++ map f items)%list |}).
Proof.
  revert w. induction items as [|x items IH]; intros w; cbn [for_each map].
  - unfold pure. rewrite app_nil_r. now destruct w.
  - cbn [bindS show ret bindP]. rewrite IH. cbn [session page].
    now rewrite <- app_assoc.
Qed.

Lemma iter_raises (v : pyval) (e : Exn) : iter v = Raise e -> e = TypeError.
Proof. destruct v; cbn; congruence. Qed.

Lemma bullet_column_outcome (memory : pydict) (key absent : string) (w : World) :
  bullet_column py_repr memory key absent w
  = if truthy (dict_get memory key) then
      match iter (dict_get memory key) with
      | Return items =>
          ret (Next tt {| session := session w;
                          page := (page w
                                   ++ map (fun item =>
                                             markdown (PStr ("- " ++ str py_repr item)))
                                          items)%list |})
      | Raise _ => ret (Halted (uncaught TypeError) w)
      end
    else ret (Next tt {| session := session w;
                         page := (page w ++ [info absent])%list |}).
Proof.
  unfold bullet_column.
  destruct (truthy (dict_get memory key)) eqn:Ht; [|reflexivity].
  rewrite (PyFacts.lookup_truthy _ _ Ht).
  unfold bindS, eval. cbn [ret bindP].
  destruct (iter (dict_get memory key)) as [items|e] eqn:Hi; cbn [ret bindP].
  - apply for_each_show.
  - now rewrite (iter_raises _ Hi).
Qed.

Lemma bullet_column_unlistable (memory : pydict) (key absent : string) (w : World) :
  exists shown : list Element,
    bullet_column py_repr memory key absent w
    = if unlistable (dict_get memory key)
      then ret (Halted (uncaught TypeError) w)
      else ret (Next tt {| session := session w; page := (page w ++ shown)%list |}).
Proof.
  rewrite bullet_column_outcome. unfold unlistable.
  destruct (truthy (dict_get memory key)); cbn [andb].
  - destruct (iter (dict_get memory key)); cbn iota.
    + eexists; reflexivity.
    + exists []. reflexivity.
  - eexists; reflexivity.
Qed.

(** X15: the second tab changes no state and calls no provider.  It ends the run
    with an uncaught [TypeError] exactly when the stored memory has, for its
    preferences or its facts, a truthy value that cannot be listed. *)
Theorem memory_tab_outcome (w : World) (stored : pydict) :
  memory (session w) = Some stored ->
  truthy (PDict stored) = true ->
  exists shown : list Element,
    memory_tab py_repr w
    = let w' := {| session := session w; page := (page w ++ shown)%list |} in
      if unlistable (dict_get stored "preferences")
         || unlistable (dict_get stored "facts")
      then ret (Halted (uncaught TypeError) w')
      else ret (Next tt w').
Proof.
  intros Hm Ht. unfold memory_tab, bindS, get_memory.
  cbn [ret bindP]. rewrite Hm. cbn [has_memory]. rewrite Ht.
  destruct (bullet_column_unlistable stored "preferences"
              "No preferences extracted yet." w) as (shown1 & ->).
  destruct (unlistable (dict_get stored "preferences")); cbn [orb ret bindP].
  { exists []. cbn zeta. destruct w as [s pg]. cbn [session page].
    now rewrite app_nil_r. }
  destruct (truthy (dict_get stored "emotional_patterns")) eqn:Hte;
    [rewrite (PyFacts.lookup_truthy _ _ Hte)|];
    cbn [eval show ret bindP].
  all: match goal with
       | |- context [bullet_column _ ?m "facts" ?absent ?w2] =>
           destruct (bullet_column_unlistable m "facts" absent w2) as (shown3 & ->)
       end.
  all: destruct (unlistable (dict_get stored "facts")); cbn [ret bindP].
  all: unfold show; cbn [session page ret]; cbn zeta; rewrite <- ?app_assoc;
       eexists; reflexivity.
Qed.

Lemma memory_tab_unlistable_preferences (w : World) (stored : pydict) :
  memory (session w) = Some stored ->
  truthy (PDict stored) = true ->
  unlistable (dict_get stored "preferences") = true ->
  memory_tab py_repr w = ret (Halted (uncaught TypeError) w).
Proof.
  intros Hm Ht Hun. unfold memory_tab, bindS, get_memory.
  cbn [ret bindP]. rewrite Hm. cbn [has_memory]. rewrite Ht.
  destruct (bullet_column_unlistable stored "preferences"
              "No preferences extracted yet." w) as (shown & ->).
  now rewrite Hun.
Qed.

Lemma bullet_column_record (memory : pydict) (key absent : string)
  (items : list string) (w : World) :
  dict_get memory key = PList (map PStr items) ->
  bullet_column py_repr memory key absent w
  = ret (Next tt {| session := session w;
                    page := (page w ++ column items absent)%list |}).
Proof.
  intros Hv. rewrite bullet_column_outcome, Hv, PyFacts.truthy_strs.
  destruct items as [|x items]; [reflexivity|].
  cbn [is_nil negb iter column]. now rewrite map_map.
Qed.

(** X16: for a well-shaped record the second tab completes and lists every
    preference and every fact, none left out, with the emotional patterns
    between them and the raw record at the end. *)
Theorem memory_tab_lists_everything (w : World) (r : Memory.MemoryRecord) :
  memory (session w) = Some (Memory.to_dict r) ->
  memory_tab py_repr w
  = ret (Next tt {| session := session w;
                    page := (page w ++ memory_page r)%list |}).
Proof.
  intros Hm. unfold memory_tab, bindS, get_memory.
  cbn [ret bindP]. rewrite Hm.
  change (has_memory (Some (Memory.to_dict r))) with true. cbn beta iota.
  rewrite bullet_column_record with (items := Memory.preferences r) by reflexivity.
  cbn [ret bindP].
  change (dict_get (Memory.to_dict r) "emotional_patterns")
    with (PStr (Memory.emotional_patterns r)).
  rewrite PyFacts.truthy_str.
  destruct (is_empty (Memory.emotional_patterns r)) eqn:He; cbn [negb].
  - cbn [show ret bindP session page].
    rewrite bullet_column_record with (items := Memory.facts r) by reflexivity.
    cbn [ret bindP]. unfold show. cbn [session page].
    unfold memory_page. rewrite He. now rewrite <- !app_assoc.
  - change (getitem (Memory.to_dict r) "emotional_patterns")
      with (Return (PStr (Memory.emotional_patterns r)) : PyResult pyval).
    cbn [eval show ret bindP session page].
    rewrite bullet_column_record with (items := Memory.facts r) by reflexivity.
    cbn [ret bindP]. unfold show. cbn [session page].
    unfold memory_page. rewrite He. now rewrite <- !app_assoc.
Qed.

Lemma run_get_standard_response
  (self : Personality.PersonalityEngine) (question api_key : string) (p : Provider) :
  run p (Personality.get_standard_response self question api_key)
  = (Return (answer_or "Error generating response: "
                       (p (baseline_request question api_key))),
     [baseline_request question api_key]).
Proof.
  unfold Personality.get_standard_response. rewrite RunFacts.run_invoke_or.
  fold (baseline_client api_key). fold (baseline_request question api_key).
  now destruct (p (baseline_request question api_key)).
Qed.

Lemma catalog_entry_lookup (personality : string) (info : Personality.PersonalityInfo) :
  lookup personality Personality.PERSONALITIES = Some info ->
  catalog_entry personality = info.
Proof. unfold catalog_entry. now intros ->. Qed.

(** One run of the third tab. *)
Lemma comparison_tab_run (i : Inputs) (api_key : string) (w : World) (p : Provider)
  (info : Personality.PersonalityInfo) :
  nonempty (user_question i) = true ->
  nonempty api_key = true ->
  lookup (selected_personality i) Personality.PERSONALITIES = Some info ->
  run p (comparison_tab py_repr exn_str i api_key w)
  = let question := user_question i in
    let stored := memory (session w) in
    let baseline := baseline_request question api_key in
    let standard := answer_or "Error generating response: " (p baseline) in
    match Personality.memory_context py_repr stored with
    | Return block =>
        let req := transformation_request (app_engine api_key) question standard
                                          (selected_personality i) block in
        (Return (Next tt
           {| session := session w;
              page := (page w ++ comparison_head standard info stored
                       ++ [markdown (PStr (answer_or "Error transforming response: "
                                                     (p req)))]
                       ++ comparison_tail stored)%list |}),
         [baseline; baseline; req])
    | Raise e =>
        (Return (Next tt
           {| session := session w;
              page := (page w ++ comparison_head standard info stored
                       ++ [error ("Error: " ++ exn_str e)]
                       ++ comparison_tail stored)%list |}),
         [baseline; baseline])
    end.
Proof.
  intros Hq Hk Hinfo. unfold comparison_tab. rewrite Hq, Hk. cbn [negb].
  cbn [Personality.__init__ required bindR with_default].
  fold (app_engine api_key).
  rewrite TraceFacts.run_then, TraceFacts.run_catch.
  rewrite TraceFacts.bindS_eval.
  rewrite TraceFacts.run_then, TraceFacts.run_call', run_get_standard_response.
  cbn [call_run then_run catch_run show ret run app].
  unfold getitem. rewrite Hinfo.
  rewrite TraceFacts.bindS_eval, TraceFacts.bindS_show, TraceFacts.bindS_get_memory.
  cbn [session page].
  assert (Hcap : forall (B : Type) (f : unit -> Script B) (w0 : World) (b : bool)
                        (x y : Element),
            bindS (if b then show x else show y) f w0
            = f tt {| session := session w0;
                      page := (page w0 ++ [if b then x else y])%list |}).
  { intros B f w0 [|] x y; reflexivity. }
  rewrite Hcap. cbn [session page].
  rewrite TraceFacts.run_then, TraceFacts.run_catch.
  rewrite TraceFacts.bindS_eval.
  rewrite TraceFacts.run_then, TraceFacts.run_call', run_get_standard_response.
  cbn [call_run then_run].
  rewrite TraceFacts.bindS_get_memory. cbn [session page].
  rewrite TraceFacts.run_then, TraceFacts.run_call',
    PersonalityProps.run_transform_response.
  unfold comparison_head, comparison_tail, when.
  destruct (Personality.memory_context py_repr (memory (session w))) as [block|e];
    cbn [call_run then_run catch_run show ret run app
         session page];
    rewrite TraceFacts.bindS_get_memory; cbn [session page];
    destruct (has_memory (memory (session w)));
    cbn [show pure ret run app session page];
    rewrite <- ?app_assoc; reflexivity.
Qed.


(** X18: the third tab with a memory that cannot be folded into the prompt: the
    baseline answer is requested twice, no transformation is requested, the
    error is shown and the run goes on. *)
Theorem comparison_tab_bad_memory (i : Inputs) (api_key : string) (w : World)
  (p : Provider) (info : Personality.PersonalityInfo) (e : Exn) :
  nonempty (user_question i) = true ->
  nonempty api_key = true ->
  lookup (selected_personality i) Personality.PERSONALITIES = Some info ->
  Personality.memory_context py_repr (memory (session w)) = Raise e ->
  let baseline := baseline_request (user_question i) api_key in
  let standard := answer_or "Error generating response: " (p baseline) in
  run p (comparison_tab py_repr exn_str i api_key w)
  = (Return (Next tt
       {| session := session w;
          page := (page w ++ comparison_head standard info (memory (session w))
                   ++ [error ("Error: " ++ exn_str TypeError)]
                   ++ comparison_tail (memory (session w)))%list |}),
     [baseline; baseline]).
Proof.
  intros Hq Hk Hinfo He baseline standard.
  rewrite comparison_tab_run with (info := info) by assumption.
  cbn zeta. rewrite He.
  now rewrite PersonalityProps.memory_context_raises with (1 := He).
Qed.

Lemma sidebar_key_outcome (i : Inputs) (w : World) :
  sidebar_key i w
  = if nonempty (effective_key i) then
      ret (Next (effective_key i)
             {| session := session w;
                page := (page w
                         ++ if nonempty (secrets_key i)
                            then [success "✅ API key loaded from Secrets (Streamlit Cloud)"]
                            else [])%list |})
    else
      ret (Halted stop
             {| session := session w;
                page := (page w
                         ++ [ warning "⚠️ Please enter your OpenAI API key to use this app.";
                              info "💡 On Streamlit Cloud: Add your key in App Settings → Secrets" ])%list |}).
Proof.
  unfold sidebar_key, effective_key. destruct w as [s pg].
  destruct (secrets_key i) as [|c sk]; cbn.
  - destruct (key_input i) as [|c ki]; cbn; rewrite ?app_nil_r, <- ?app_assoc;
      reflexivity.
  - reflexivity.
Qed.

(** X19: without a key, from the secrets or typed, the run stops at the sidebar:
    nothing is asked of the provider and the session state is left as it
    was, whatever was clicked or typed. *)
Theorem no_key_no_run (raw : RawSession) (i : Inputs) (p : Provider) :
  secrets_key i = EmptyString ->
  key_input i = EmptyString ->
  run p (script py_repr exn_str JsonOutputParser_new raw i)
  = (Return (Halted stop
       {| session := initialize raw;
          page := [ warning "⚠️ Please enter your OpenAI API key to use this app.";
                    info "💡 On Streamlit Cloud: Add your key in App Settings → Secrets" ] |}),
     []).
Proof.
  intros Hs Hk. unfold script, main.
  rewrite TraceFacts.run_then, sidebar_key_outcome.
  unfold effective_key. rewrite Hs, Hk. reflexivity.
Qed.

Lemma chat_input_tab_idle (i : Inputs) (w : World) :
  load_clicked i = false ->
  clear_clicked i = false ->
  save_clicked i = false ->
  chat_input_tab i w
  = ret (Next tt
      {| session := session w;
         page := (page w
                  ++ if nonempty_list (chat_messages (session w))
                     then [info ("📊 Currently loaded: **"
                                 ++ str_of_nat (List.length (chat_messages (session w)))
                                 ++ "** messages")]
                     else [])%list |}).
Proof.
  intros Hl Hc Hs. unfold chat_input_tab. rewrite Hl, Hc, Hs.
  destruct w as [[mem msgs] pg].
  destruct (nonempty_list (sample_chats i)), msgs;
    cbn -[str_of_nat List.length]; rewrite ?app_nil_r; reflexivity.
Qed.

(** X20: a reply whose preferences are a number other than zero, or [true], is
    stored like any other: the run that extracts it shows the success
    message and then ends with an uncaught [TypeError] in the second tab,
    before the third tab asks anything of the provider. *)
Theorem unlistable_reply_ends_the_run (raw : RawSession) (i : Inputs) (p : Provider)
  (label content : string) (reply : pydict) (v : pyval) :
  nonempty (effective_key i) = true ->
  lookup (selected_personality i) personality_options = Some label ->
  extract_clicked i = true ->
  load_clicked i = false ->
  clear_clicked i = false ->
  save_clicked i = false ->
  chat_messages (initialize raw) <> [] ->
  p (extraction_request (app_extractor JsonOutputParser_new (effective_key i))
                        (chat_messages (initialize raw))) = Content content ->
  parse JsonOutputParser_new content = Return (PDict reply) ->
  lookup "preferences" reply = Some v ->
  unlistable v = true ->
  exists (w' : World) (stored : pydict),
    run p (script py_repr exn_str JsonOutputParser_new raw i)
    = (Return (Halted (uncaught TypeError) w'),
       [extraction_request (app_extractor JsonOutputParser_new (effective_key i))
                           (chat_messages (initialize raw))]) /\
    In (success "✅ Memory extracted successfully!") (page w') /\
    memory (session w') = Some stored /\
    lookup "preferences" stored = Some v.
Proof.
  intros Hkey Hlabel Hex Hl Hc Hs Hmsgs Hp Hparse Hv Hun.
  unfold script, main.
  rewrite TraceFacts.run_then, sidebar_key_outcome, Hkey.
  cbn [ret run then_run].
  unfold getitem. rewrite Hlabel.
  rewrite TraceFacts.bindS_eval, TraceFacts.bindS_show. rewrite Hex. cbn [when].
  rewrite TraceFacts.run_then.
  rewrite extract_button_run by exact Hmsgs.
  cbn zeta. cbn [session chat_messages page then_run].
  rewrite Hp. cbn [record_of_outcome Memory.parser app_extractor]. rewrite Hparse.
  rewrite TraceFacts.run_then.
  rewrite chat_input_tab_idle by assumption.
  cbn [ret run then_run session chat_messages page].
  rewrite TraceFacts.run_then.
  assert (Hpref : dict_get (map (fun key => (key, dict_get_default reply key (default_of key)))
                                memory_keys) "preferences" = v).
  { cbn. unfold dict_get_default. now rewrite Hv. }
  rewrite memory_tab_unlistable_preferences
    with (stored := map (fun key => (key, dict_get_default reply key (default_of key)))
                        memory_keys);
    [| reflexivity | reflexivity | now rewrite Hpref].
  cbn [ret run then_run app session page].
  eexists. eexists. split; [reflexivity|].
  cbn [session page memory].
  split; [|split].
  - rewrite !in_app_iff. left. right. now left.
  - reflexivity.
  - cbn. unfold dict_get_default. now rewrite Hv.
Qed.

End WithCollaborators.



Lemma memory_tab_outcome_witness :
  exists shown : list Element,
    memory_tab Demo.repr (AppDemo.world (Some [("preferences", PInt 5)]))
    = let w' := {| session := session (AppDemo.world (Some [("preferences", PInt 5)]));
                   page := (page (AppDemo.world (Some [("preferences", PInt 5)]))
                            ++ shown)%list |} in
      if unlistable (dict_get [("preferences", PInt 5)] "preferences")
         || unlistable (dict_get [("preferences", PInt 5)] "facts")
      then ret (Halted (uncaught TypeError) w')
      else ret (Next tt w').
Proof.
  apply memory_tab_outcome; reflexivity.
Defined.

Lemma memory_tab_lists_everything_witness :
  memory_tab Demo.repr (AppDemo.world (Some (Memory.to_dict AppDemo.record)))
  = ret (Next tt
      {| session := session (AppDemo.world (Some (Memory.to_dict AppDemo.record)));
         page := (page (AppDemo.world (Some (Memory.to_dict AppDemo.record)))
                  ++ memory_page AppDemo.record)%list |}).
Proof.
  apply memory_tab_lists_everything. reflexivity.
Defined.


Lemma comparison_tab_bad_memory_witness :
  let w := AppDemo.world (Some [("preferences", PList [PInt 1; PInt 2])]) in
  let p := Demo.replying "Check your logs." in
  let baseline := baseline_request (user_question AppDemo.inputs) "sk-demo" in
  let standard := answer_or "Error generating response: " (p baseline) in
  run p (comparison_tab Demo.repr AppDemo.exn_str AppDemo.inputs "sk-demo" w)
  = (Return (Next tt
       {| session := session w;
          page := (page w ++ comparison_head standard AppDemo.witty_friend
                                             (memory (session w))
                   ++ [error ("Error: " ++ AppDemo.exn_str TypeError)]
                   ++ comparison_tail (memory (session w)))%list |}),
     [baseline; baseline]).
Proof.
  apply comparison_tab_bad_memory with (e := TypeError); reflexivity.
Defined.

Lemma no_key_no_run_witness :
  run (Demo.replying "ok")
      (script Demo.repr AppDemo.exn_str AppDemo.parser AppDemo.raw AppDemo.keyless_inputs)
  = (Return (Halted stop
       {| session := initialize AppDemo.raw;
          page := [ warning "⚠️ Please enter your OpenAI API key to use this app.";
                    info "💡 On Streamlit Cloud: Add your key in App Settings → Secrets" ] |}),
     []).
Proof.
  apply no_key_no_run; reflexivity.
Defined.

Lemma unlistable_reply_ends_the_run_witness :
  exists (w' : World) (stored : pydict),
    run (Demo.replying "{...}")
        (script Demo.repr AppDemo.exn_str AppDemo.parser AppDemo.raw AppDemo.inputs)
    = (Return (Halted (uncaught TypeError) w'),
       [extraction_request (app_extractor AppDemo.parser (effective_key AppDemo.inputs))
                           (chat_messages (initialize AppDemo.raw))]) /\
    In (success "✅ Memory extracted successfully!") (page w') /\
    memory (session w') = Some stored /\
    lookup "preferences" stored = Some (PInt 5).
Proof.
  apply unlistable_reply_ends_the_run
    with (label := "Witty Friend") (content := "{...}")
         (reply := [("preferences", PInt 5)]);
    try reflexivity.
  discriminate.
Defined.

End AppProps.

Module KeyProps.
Import Py LangChain PyStr App Reference AppReference.

Section Always.

Variable P : Request -> Prop.

Lemma always_run {A} (m : Prog A) (p : Provider) :
  always P m -> Forall P (snd (run p m)).
Proof.
  induction m as [r|req k IH]; cbn [always]; intros H.
  - constructor.
  - rewrite RunFacts.run_Invoke. cbn [snd]. destruct H as [Hreq Hk].
    constructor; [exact Hreq | now apply IH].
Qed.

Lemma always_bindP {A B} (m : Prog A) (f : A -> Prog B) :
  always P m -> (forall a, always P (f a)) -> always P (bindP m f).
Proof.
  intros Hm Hf. induction m as [[a|e]|req k IH]; cbn [bindP always] in *.
  - apply Hf.
  - exact I.
  - destruct Hm as [Hreq Hk]. split; [exact Hreq|]. intros o. now apply IH.
Qed.

Lemma always_try_except {A} (m : Prog A) (h : Exn -> Prog A) :
  always P m -> (forall e, always P (h e)) -> always P (try_except m h).
Proof.
  intros Hm Hh. induction m as [[a|e]|req k IH]; cbn [try_except always] in *.
  - exact I.
  - apply Hh.
  - destruct Hm as [Hreq Hk]. split; [exact Hreq|]. intros o. now apply IH.
Qed.

Lemma always_bindS {A B} (m : Script A) (f : A -> Script B) (w : World) :
  always P (m w) -> (forall a w', always P (f a w')) -> always P (bindS m f w).
Proof.
  intros Hm Hf. unfold bindS. apply always_bindP; [exact Hm|].
  intros [a w'|h w']; [apply Hf | exact I].
Qed.

Lemma always_call {A} (m : Prog A) (w : World) : always P m -> always P (call m w).
Proof.
  intros Hm. unfold call. apply always_try_except.
  - apply always_bindP; [exact Hm | intros a; exact I].
  - intros e. exact I.
Qed.

Lemma always_try_ (body : Script unit) (handler : Exn -> Script unit) (w : World) :
  always P (body w) -> (forall e w', always P (handler e w')) ->
  always P (try_ body handler w).
Proof.
  intros Hb Hh. unfold try_. apply always_bindP; [exact Hb|].
  intros [a w'|[| |e] w']; try exact I. apply Hh.
Qed.

Lemma always_eval {A} (r : PyResult A) (w : World) : always P (eval r w).
Proof. destruct r; exact I. Qed.

Lemma always_when (b : bool) (body : Script unit) (w : World) :
  always P (body w) -> always P (when b body w).
Proof. destruct b; [trivial | intros _; exact I]. Qed.

Lemma always_for_each {A} (l : list A) (body : A -> Script unit) (w : World) :
  (forall x w', always P (body x w')) -> always P (for_each l body w).
Proof.
  intros Hb. revert w. induction l as [|x l IH]; intros w; cbn [for_each].
  - exact I.
  - apply always_bindS; [apply Hb | intros _ w'; apply IH].
Qed.

Lemma always_extract_memory (self : Memory.MemoryExtractor) (chat_lines : list string) :
  P (extraction_request self chat_lines) ->
  always P (Memory.extract_memory self chat_lines).
Proof.
  intros Hreq. unfold Memory.extract_memory, invoke.
  cbn [bindP try_except always]. split; [exact Hreq|].
  intros [detail|c]; cbn; [exact I|].
  destruct (parse (Memory.parser self) c) as [[| | | | |l|d]|e]; exact I.
Qed.

Lemma always_get_standard_response
  (self : Personality.PersonalityEngine) (question api_key : string) :
  P (baseline_request question api_key) ->
  always P (Personality.get_standard_response self question api_key).
Proof.
  intros Hreq. unfold Personality.get_standard_response, invoke_or.
  cbn [always]. split; [exact Hreq|]. intros [detail|c]; exact I.
Qed.

Lemma always_transform_response (py_repr : pyval -> string)
  (self : Personality.PersonalityEngine)
  (question standard_response personality : string) (memory : option pydict) :
  (forall block,
     P (transformation_request self question standard_response personality block)) ->
  always P (Personality.transform_response py_repr self question standard_response
                                           personality memory).
Proof.
  intros Hreq. unfold Personality.transform_response.
  rewrite PersonalityProps.getitem_validated. cbn [lift bindP].
  destruct (Personality.memory_context py_repr memory) as [block|e];
    cbn [lift bindP]; [|exact I].
  unfold invoke_or. cbn [always]. split; [apply Hreq|].
  intros [detail|c]; exact I.
Qed.

End Always.

Section WithCollaborators.

Variable py_repr : pyval -> string.
Variable exn_str : Exn -> string.
Variable JsonOutputParser_new : JsonOutputParser.

Lemma always_extract_button (key : string) (w : World) :
  always (with_key key) (extract_button exn_str JsonOutputParser_new key w).
Proof.
  unfold extract_button. rewrite TraceFacts.bindS_get_chat_messages.
  destruct (nonempty_list (chat_messages (session w))); [|exact I].
  apply always_try_; [|intros e w'; exact I].
  cbn [Memory.__init__ required bindR with_default].
  rewrite TraceFacts.bindS_eval, TraceFacts.bindS_get_chat_messages.
  apply always_bindS; [|intros memory w'].
  - apply always_call, always_extract_memory. split; reflexivity.
  - apply always_bindS; [exact I | intros _ w''; exact I].
Qed.

Lemma always_chat_input_tab (key : string) (i : Inputs) (w : World) :
  always (with_key key) (chat_input_tab i w).
Proof.
  unfold chat_input_tab.
  apply always_bindS; [|intros _ w1].
  { apply always_when, always_when.
    apply always_bindS; [exact I | intros _ w1; exact I]. }
  apply always_bindS; [|intros _ w2].
  { apply always_when.
    apply always_bindS; [exact I | intros _ w2].
    apply always_bindS; [exact I | intros _ w3; exact I]. }
  rewrite TraceFacts.bindS_get_chat_messages.
  apply always_bindS; [|intros _ w3].
  { apply always_when.
    apply always_bindS; [exact I | intros _ w3].
    apply always_bindS; [exact I | intros _ w4; exact I]. }
  rewrite TraceFacts.bindS_get_chat_messages.
  apply always_when. exact I.
Qed.

Lemma always_bullet_column (key : string) (memory : pydict) (field absent : string)
  (w : World) :
  always (with_key key) (bullet_column py_repr memory field absent w).
Proof.
  rewrite AppProps.bullet_column_outcome.
  destruct (truthy (dict_get memory field)); [|exact I].
  destruct (iter (dict_get memory field)); exact I.
Qed.

Lemma always_memory_tab (key : string) (w : World) :
  always (with_key key) (memory_tab py_repr w).
Proof.
  unfold memory_tab. rewrite TraceFacts.bindS_get_memory.
  destruct (has_memory (memory (session w))); [|exact I].
  destruct (memory (session w)) as [stored|]; [|exact I].
  apply always_bindS; [apply always_bullet_column | intros _ w1].
  apply always_bindS; [|intros _ w2].
  { destruct (truthy (dict_get stored "emotional_patterns")); [|exact I].
    apply always_bindS; [apply always_eval | intros v w2; exact I]. }
  apply always_bindS; [apply always_bullet_column | intros _ w3; exact I].
Qed.

Lemma always_comparison_tab (key : string) (i : Inputs) (w : World) :
  always (with_key key) (comparison_tab py_repr exn_str i key w).
Proof.
  unfold comparison_tab.
  destruct (nonempty (user_question i)); [|exact I].
  destruct (negb (nonempty key)); [exact I|].
  cbn [Personality.__init__ required bindR with_default].
  apply always_bindS; [|intros _ w1].
  { apply always_try_; [|intros e w1; exact I].
    rewrite TraceFacts.bindS_eval.
    apply always_bindS; [|intros standard w1; exact I].
    apply always_call, always_get_standard_response. split; reflexivity. }
  apply always_bindS; [apply always_eval | intros info w2].
  apply always_bindS; [exact I | intros _ w3].
  rewrite TraceFacts.bindS_get_memory.
  apply always_bindS; [|intros _ w4].
  { destruct (has_memory (memory (session w3))); exact I. }
  apply always_bindS; [|intros _ w5].
  { apply always_try_; [|intros e w5; exact I].
    rewrite TraceFacts.bindS_eval.
    apply always_bindS; [|intros standard w5].
    - apply always_call, always_get_standard_response. split; reflexivity.
    - rewrite TraceFacts.bindS_get_memory.
      apply always_bindS; [|intros transformed w6; exact I].
      apply always_call, always_transform_response.
      intros block. split; reflexivity. }
  rewrite TraceFacts.bindS_get_memory.
  apply always_when. exact I.
Qed.

(** X21: every request of a run, whatever is clicked, typed, stored or answered,
    goes out with the key the sidebar settled on and for the model
    "gpt-4o-mini". *)
Theorem every_request_uses_the_key (raw : RawSession) (i : Inputs) (p : Provider) :
  Forall (fun req => api_key (client req) = effective_key i /\
                     model (client req) = "gpt-4o-mini")
         (snd (run p (script py_repr exn_str JsonOutputParser_new raw i))).
Proof.
  apply always_run with (P := with_key (effective_key i)). unfold script, main.
  unfold bindS at 1. rewrite AppProps.sidebar_key_outcome.
  destruct (nonempty (effective_key i)) eqn:Hkey; cbn [ret bindP]; [|exact I].
  apply always_bindS; [apply always_eval | intros label w1].
  apply always_bindS; [exact I | intros _ w2].
  apply always_bindS; [apply always_when, always_extract_button | intros _ w3].
  apply always_bindS; [apply always_chat_input_tab | intros _ w4].
  apply always_bindS; [apply always_memory_tab | intros _ w5].
  apply always_comparison_tab.
Qed.

End WithCollaborators.
End KeyProps.

Module CountProps.
Import Py LangChain PyStr App Reference AppReference.

Lemma within_mono {A} (m : Prog A) (n n' : nat) :
  n <= n' -> within n m -> within n' m.
Proof.
  revert n n'. induction m as [r|req k IH]; intros n n' Hle H.
  - exact I.
  - destruct n as [|n]; [now elim H|].
    destruct n' as [|n']; [lia|].
    cbn [within] in *. intros o. apply IH with (n := n); [lia | apply H].
Qed.

Lemma within_run {A} (m : Prog A) (n : nat) (p : Provider) :
  within n m -> List.length (snd (run p m)) <= n.
Proof.
  revert n. induction m as [r|req k IH]; intros n; cbn [within].
  - intros _. cbn. lia.
  - destruct n as [|n]; [intros []|]. intros H.
    rewrite RunFacts.run_Invoke. cbn [snd List.length].
    specialize (IH (p req) n (H (p req))). lia.
Qed.

Lemma within_bindP {A B} (m : Prog A) (f : A -> Prog B) (a b : nat) :
  within a m -> (forall x, within b (f x)) -> within (a + b) (bindP m f).
Proof.
  revert a. induction m as [[x|e]|req k IH]; intros a Hm Hf; cbn [bindP within] in *.
  - apply within_mono with (n := b); [lia | apply Hf].
  - exact I.
  - destruct a as [|a]; [now elim Hm|]. cbn [Nat.add]. intros o.
    apply IH; [apply Hm | exact Hf].
Qed.

Lemma within_try_except {A} (m : Prog A) (h : Exn -> Prog A) (a b : nat) :
  within a m -> (forall e, within b (h e)) -> within (a + b) (try_except m h).
Proof.
  revert a. induction m as [[x|e]|req k IH]; intros a Hm Hh;
    cbn [try_except within] in *.
  - exact I.
  - apply within_mono with (n := b); [lia | apply Hh].
  - destruct a as [|a]; [now elim Hm|]. cbn [Nat.add]. intros o.
    apply IH; [apply Hm | exact Hh].
Qed.

Lemma within_bindS {A B} (m : Script A) (f : A -> Script B) (w : World) (a b : nat) :
  within a (m w) -> (forall x w', within b (f x w')) -> within (a + b) (bindS m f w).
Proof.
  intros Hm Hf. unfold bindS. apply within_bindP; [exact Hm|].
  intros [x w'|h w']; [apply Hf | exact I].
Qed.

Lemma within_call {A} (m : Prog A) (w : World) (n : nat) :
  within n m -> within n (call m w).
Proof.
  intros Hm. unfold call. rewrite <- (Nat.add_0_r n). apply within_try_except.
  - rewrite <- (Nat.add_0_r n). apply within_bindP; [exact Hm | intros x; exact I].
  - intros e. exact I.
Qed.

Lemma within_try_ (body : Script unit) (handler : Exn -> Script unit) (w : World)
  (a b : nat) :
  within a (body w) -> (forall e w', within b (handler e w')) ->
  within (a + b) (try_ body handler w).
Proof.
  intros Hb Hh. unfold try_. apply within_bindP; [exact Hb|].
  intros [x w'|[| |e] w']; try exact I. apply Hh.
Qed.

Lemma within_when (b : bool) (body : Script unit) (w : World) (n : nat) :
  within n (body w) -> within n (when b body w).
Proof. destruct b; [trivial | intros _; exact I]. Qed.

Lemma within_extract_memory (self : Memory.MemoryExtractor) (chat_lines : list string) :
  within 1 (Memory.extract_memory self chat_lines).
Proof.
  unfold Memory.extract_memory, invoke. cbn [bindP try_except within].
  intros [detail|c]; cbn; [exact I|].
  destruct (parse (Memory.parser self) c) as [[| | | | |l|d]|e]; exact I.
Qed.

Lemma within_get_standard_response
  (self : Personality.PersonalityEngine) (question api_key : string) :
  within 1 (Personality.get_standard_response self question api_key).
Proof.
  unfold Personality.get_standard_response, invoke_or. cbn [within].
  intros [detail|c]; exact I.
Qed.

Lemma within_transform_response (py_repr : pyval -> string)
  (self : Personality.PersonalityEngine)
  (question standard_response personality : string) (memory : option pydict) :
  within 1 (Personality.transform_response py_repr self question standard_response
                                           personality memory).
Proof.
  unfold Personality.transform_response.
  rewrite PersonalityProps.getitem_validated. cbn [lift bindP].
  destruct (Personality.memory_context py_repr memory) as [block|e];
    cbn [lift bindP]; [|exact I].
  unfold invoke_or. cbn [within]. intros [detail|c]; exact I.
Qed.

Section WithCollaborators.

Variable py_repr : pyval -> string.
Variable exn_str : Exn -> string.
Variable JsonOutputParser_new : JsonOutputParser.

Lemma within_extract_button (key : string) (w : World) :
  within 1 (extract_button exn_str JsonOutputParser_new key w).
Proof.
  unfold extract_button. rewrite TraceFacts.bindS_get_chat_messages.
  destruct (nonempty_list (chat_messages (session w))); [|exact I].
  apply within_try_ with (a := 1) (b := 0); [|intros e w'; exact I].
  cbn [Memory.__init__ required bindR with_default].
  rewrite TraceFacts.bindS_eval, TraceFacts.bindS_get_chat_messages.
  apply within_bindS with (a := 1) (b := 0); [|intros memory w'].
  - apply within_call, within_extract_memory.
  - apply within_bindS with (a := 0) (b := 0); [exact I | intros _ w''; exact I].
Qed.

Lemma within_eval {A} (r : PyResult A) (w : World) : within 0 (eval r w).
Proof. destruct r; exact I. Qed.

Lemma within_chat_input_tab (i : Inputs) (w : World) : within 0 (chat_input_tab i w).
Proof.
  unfold chat_input_tab.
  apply within_bindS with (a := 0) (b := 0); [|intros _ w1].
  { apply within_when, within_when.
    apply within_bindS with (a := 0) (b := 0); [exact I | intros _ w1; exact I]. }
  apply within_bindS with (a := 0) (b := 0); [|intros _ w2].
  { apply within_when.
    apply within_bindS with (a := 0) (b := 0); [exact I | intros _ w2].
    apply within_bindS with (a := 0) (b := 0); [exact I | intros _ w3; exact I]. }
  rewrite TraceFacts.bindS_get_chat_messages.
  apply within_bindS with (a := 0) (b := 0); [|intros _ w3].
  { apply within_when.
    apply within_bindS with (a := 0) (b := 0); [exact I | intros _ w3].
    apply within_bindS with (a := 0) (b := 0); [exact I | intros _ w4; exact I]. }
  rewrite TraceFacts.bindS_get_chat_messages.
  apply within_when. exact I.
Qed.

Lemma within_bullet_column (memory : pydict) (field absent : string) (w : World) :
  within 0 (bullet_column py_repr memory field absent w).
Proof.
  rewrite AppProps.bullet_column_outcome.
  destruct (truthy (dict_get memory field)); [|exact I].
  destruct (iter (dict_get memory field)); exact I.
Qed.

Lemma within_memory_tab (w : World) : within 0 (memory_tab py_repr w).
Proof.
  unfold memory_tab. rewrite TraceFacts.bindS_get_memory.
  destruct (has_memory (memory (session w))); [|exact I].
  destruct (memory (session w)) as [stored|]; [|exact I].
  apply within_bindS with (a := 0) (b := 0); [apply within_bullet_column | intros _ w1].
  apply within_bindS with (a := 0) (b := 0); [|intros _ w2].
  { destruct (truthy (dict_get stored "emotional_patterns")); [|exact I].
    apply within_bindS with (a := 0) (b := 0);
      [apply within_eval | intros v w2; exact I]. }
  apply within_bindS with (a := 0) (b := 0);
    [apply within_bullet_column | intros _ w3; exact I].
Qed.

Lemma within_comparison_tab (key : string) (i : Inputs) (w : World) :
  within 3 (comparison_tab py_repr exn_str i key w).
Proof.
  unfold comparison_tab.
  destruct (nonempty (user_question i)); [|exact I].
  destruct (negb (nonempty key)); [exact I|].
  cbn [Personality.__init__ required bindR with_default].
  apply within_bindS with (a := 1) (b := 2); [|intros _ w1].
  { apply within_try_ with (a := 1) (b := 0); [|intros e w1; exact I].
    rewrite TraceFacts.bindS_eval.
    apply within_bindS with (a := 1) (b := 0); [|intros standard w1; exact I].
    apply within_call, within_get_standard_response. }
  apply within_bindS with (a := 0) (b := 2); [apply within_eval | intros info w2].
  apply within_bindS with (a := 0) (b := 2); [exact I | intros _ w3].
  rewrite TraceFacts.bindS_get_memory.
  apply within_bindS with (a := 0) (b := 2); [|intros _ w4].
  { destruct (has_memory (memory (session w3))); exact I. }
  apply within_bindS with (a := 2) (b := 0); [|intros _ w5].
  { apply within_try_ with (a := 2) (b := 0); [|intros e w5; exact I].
    rewrite TraceFacts.bindS_eval.
    apply within_bindS with (a := 1) (b := 1); [|intros standard w5].
    - apply within_call, within_get_standard_response.
    - rewrite TraceFacts.bindS_get_memory.
      apply within_bindS with (a := 1) (b := 0); [|intros transformed w6; exact I].
      apply within_call, within_transform_response. }
  rewrite TraceFacts.bindS_get_memory.
  apply within_when. exact I.
Qed.

(** X22: a run asks the provider at most four times: once to extract, twice for
    the baseline answer, once to transform it. *)
Theorem at_most_four_requests (raw : RawSession) (i : Inputs) (p : Provider) :
  List.length (snd (run p (script py_repr exn_str JsonOutputParser_new raw i))) <= 4.
Proof.
  apply within_run. unfold script, main.
  unfold bindS at 1. rewrite AppProps.sidebar_key_outcome.
  destruct (nonempty (effective_key i)) eqn:Hkey; cbn [ret bindP]; [|exact I].
  apply within_bindS with (a := 0) (b := 4); [apply within_eval | intros label w1].
  apply within_bindS with (a := 0) (b := 4); [exact I | intros _ w2].
  apply within_bindS with (a := 1) (b := 3);
    [apply within_when, within_extract_button | intros _ w3].
  apply within_bindS with (a := 0) (b := 3);
    [apply within_chat_input_tab | intros _ w4].
  apply within_bindS with (a := 0) (b := 3); [apply within_memory_tab | intros _ w5].
  apply within_comparison_tab.
Qed.

End WithCollaborators.
End CountProps.

Module MoreMemoryProps.
Import Py LangChain Reference.

(** X5: [extract_memory] never raises: whatever the provider and the parser do,
    it issues its one request and returns a [dict] with exactly the three
    keys, in their order. *)
Theorem extract_memory_always_record
  (self : Memory.MemoryExtractor) (chat_lines : list string) (p : Provider) :
  exists memory : pydict,
    run p (Memory.extract_memory self chat_lines)
    = (Return memory, [extraction_request self chat_lines]) /\
    map fst memory = memory_keys.
Proof.
  rewrite MemoryProps.run_extract_memory. eexists. split; [reflexivity|].
  unfold record_of_outcome.
  destruct (p (extraction_request self chat_lines)) as [detail|c]; [reflexivity|].
  destruct (parse (Memory.parser self) c) as [[| | | | |l|d]|e]; reflexivity.
Qed.

(** X6: a reply that parses, but not to a JSON object (an array, a string, a
    number, [null]), is treated like a failure: the degraded record is
    returned. *)
Theorem extract_memory_not_object
  (self : Memory.MemoryExtractor) (chat_lines : list string) (p : Provider)
  (content : string) (v : pyval) :
  p (extraction_request self chat_lines) = Content content ->
  parse (Memory.parser self) content = Return v ->
  (forall d, v <> PDict d) ->
  run p (Memory.extract_memory self chat_lines)
  = (Return Memory.fallback, [extraction_request self chat_lines]).
Proof.
  intros Hp Hparse Hv. rewrite MemoryProps.run_extract_memory, Hp. cbn.
  rewrite Hparse. destruct v; try reflexivity. now elim (Hv d).
Qed.

Lemma extract_memory_not_object_witness :
  run (Demo.replying "[1, 2]")
      (Memory.extract_memory (Demo.extractor (Return (PList [PInt 1; PInt 2])))
                             Demo.chat_lines)
  = (Return Memory.fallback,
     [extraction_request (Demo.extractor (Return (PList [PInt 1; PInt 2])))
                         Demo.chat_lines]).
Proof.
  apply extract_memory_not_object
    with (content := "[1, 2]") (v := PList [PInt 1; PInt 2]);
    [reflexivity | reflexivity | discriminate].
Defined.

Lemma mem_append (c : ascii) (a b : string) :
  PyStr.mem c (a ++ b) = PyStr.mem c a || PyStr.mem c b.
Proof.
  induction a as [|x a IH]; cbn; [reflexivity|]. now rewrite IH, orb_assoc.
Qed.

Lemma digits_one_line (d : Decimal.uint) :
  PyStr.mem PyStr.newline (NilEmpty.string_of_uint d) = false.
Proof. induction d; cbn; try reflexivity; exact IHd. Qed.

Lemma labelled_one_line (n : nat) (msg : string) :
  PyStr.mem PyStr.newline msg = false ->
  PyStr.mem PyStr.newline ("Message " ++ str_of_nat n ++ ": " ++ msg) = false.
Proof.
  intros H. rewrite !mem_append, H. unfold str_of_nat.
  now rewrite digits_one_line.
Qed.

Lemma labelled_lines_one_line (chat_lines : list string) (start : nat) :
  forallb (fun msg => negb (PyStr.mem PyStr.newline msg)) chat_lines = true ->
  forallb (fun msg => negb (PyStr.mem PyStr.newline msg))
          (map (fun im => "Message " ++ str_of_nat (fst im + 1) ++ ": " ++ snd im)
               (Memory.enumerate_from start chat_lines)) = true.
Proof.
  revert start. induction chat_lines as [|m ms IH]; intros start; cbn [forallb map Memory.enumerate_from]; [reflexivity|].
  intros H. apply andb_prop in H as [Hm Hms]. apply negb_true_iff in Hm.
  cbn [fst snd]. rewrite labelled_one_line by exact Hm. now apply IH.
Qed.

Lemma append_inv_head (a b c : string) : a ++ b = a ++ c -> b = c.
Proof. induction a as [|x a IH]; cbn; [trivial|]. intros [= H]. now apply IH. Qed.

Lemma labelled_lines_inj (l1 l2 : list string) (start : nat) :
  map (fun im => "Message " ++ str_of_nat (fst im + 1) ++ ": " ++ snd im)
      (Memory.enumerate_from start l1)
  = map (fun im => "Message " ++ str_of_nat (fst im + 1) ++ ": " ++ snd im)
        (Memory.enumerate_from start l2) ->
  l1 = l2.
Proof.
  revert l2 start. induction l1 as [|m1 l1 IH]; intros [|m2 l2] start;
    cbn [map Memory.enumerate_from]; try discriminate; [reflexivity|].
  intros [= Hhead Htail]. cbn [fst snd] in Hhead.
  apply (@append_inv_head (str_of_nat (start + 1))) in Hhead.
  injection Hhead as ->. f_equal. now apply IH with (start := S start).
Qed.

(** X7: the context of the request determines the chat lines when each line is a
    single line of text, as the lines Save stores are; with a line break
    inside a line it does not: two different sequences of the same length
    can give the very same request. *)
Theorem chat_history_determines_lines :
  (forall l1 l2 : list string,
     forallb (fun msg => negb (PyStr.mem PyStr.newline msg)) l1 = true ->
     forallb (fun msg => negb (PyStr.mem PyStr.newline msg)) l2 = true ->
     Memory.chat_history l1 = Memory.chat_history l2 ->
     l1 = l2) /\
  (exists l1 l2 : list string,
     l1 <> l2 /\
     forall self, extraction_request self l1 = extraction_request self l2).
Proof.
  split.
  - intros l1 l2 H1 H2 Heq. unfold Memory.chat_history, Memory.enumerate in Heq.
    apply labelled_lines_inj with (start := 0).
    destruct l1 as [|a l1], l2 as [|b l2]; [reflexivity | | |].
    + cbn in Heq. destruct l2; discriminate Heq.
    + cbn in Heq. destruct l1; discriminate Heq.
    + rewrite <- (SaveProps.split_join (msgs := map _ (Memory.enumerate_from 0 (a :: l1))));
        [| discriminate | now apply labelled_lines_one_line].
      rewrite <- (SaveProps.split_join (msgs := map _ (Memory.enumerate_from 0 (b :: l2))));
        [| discriminate | now apply labelled_lines_one_line].
      now rewrite Heq.
  - exists ["x" ++ nl ++ "Message 2: y"; "z"], ["x"; "y" ++ nl ++ "Message 2: z"].
    split; [discriminate | reflexivity].
Qed.

End MoreMemoryProps.

Module MorePersonalityProps.
Import Py LangChain Reference.

Lemma firstn_nil_iff {A} (l : list A) : is_nil (firstn 3 l) = is_nil l.
Proof. now destruct l. Qed.

Lemma first_three_firstn (label : string) (items : list string) :
  first_three label items = first_three label (firstn 3 items).
Proof.
  unfold first_three. rewrite firstn_nil_iff.
  now rewrite firstn_firstn.
Qed.

Section WithRepr.

Variable py_repr : pyval -> string.


(** X10: only the first three preferences and the first three facts reach the
    prompt: two records that agree on them, and on the emotional patterns,
    give the same computation. *)
Theorem memory_beyond_three_is_ignored
  (self : Personality.PersonalityEngine)
  (question standard_response personality : string)
  (r1 r2 : Memory.MemoryRecord) :
  firstn 3 (Memory.preferences r1) = firstn 3 (Memory.preferences r2) ->
  Memory.emotional_patterns r1 = Memory.emotional_patterns r2 ->
  firstn 3 (Memory.facts r1) = firstn 3 (Memory.facts r2) ->
  Personality.transform_response py_repr self question standard_response personality
                                 (Some (Memory.to_dict r1))
  = Personality.transform_response py_repr self question standard_response personality
                                   (Some (Memory.to_dict r2)).
Proof.
  intros Hp He Hf. unfold Personality.transform_response.
  change (Some (Memory.to_dict r1)) with (option_map Memory.to_dict (Some r1)).
  change (Some (Memory.to_dict r2)) with (option_map Memory.to_dict (Some r2)).
  rewrite !PersonalityProps.memory_context_record.
  assert (Hblock : memory_block (Some r1) = memory_block (Some r2)).
  { unfold memory_block, block_parts.
    rewrite (first_three_firstn _ (Memory.preferences r1)),
            (first_three_firstn _ (Memory.facts r1)),
            (first_three_firstn _ (Memory.preferences r2)),
            (first_three_firstn _ (Memory.facts r2)).
    now rewrite Hp, He, Hf. }
  now rewrite Hblock.
Qed.

(** X11: [transform_response] ends in one of two ways only: a string returned
    after exactly one request, or a [TypeError] raised before any request. *)
Theorem transform_response_outcomes
  (self : Personality.PersonalityEngine)
  (question standard_response personality : string)
  (memory : option pydict) (p : Provider) :
  (exists s req,
     run p (Personality.transform_response py_repr self question standard_response
              personality memory) = (Return s, [req])) \/
  run p (Personality.transform_response py_repr self question standard_response
           personality memory) = (Raise TypeError, []).
Proof.
  rewrite PersonalityProps.run_transform_response.
  destruct (Personality.memory_context py_repr memory) as [block|e] eqn:Hctx.
  - left. eauto.
  - right. now rewrite (PersonalityProps.memory_context_raises _ _ Hctx).
Qed.

End WithRepr.

Lemma memory_beyond_three_is_ignored_witness :
  Personality.transform_response Demo.repr Demo.engine "q" "a" "calm_mentor"
    (Some (Memory.to_dict {| Memory.preferences := ["a"; "b"; "c"; "d"];
                             Memory.emotional_patterns := "calm";
                             Memory.facts := ["f"] |}))
  = Personality.transform_response Demo.repr Demo.engine "q" "a" "calm_mentor"
      (Some (Memory.to_dict {| Memory.preferences := ["a"; "b"; "c"; "e"; "g"];
                               Memory.emotional_patterns := "calm";
                               Memory.facts := ["f"] |})).
Proof. apply memory_beyond_three_is_ignored; reflexivity. Defined.


End MorePersonalityProps.

Module MoreSummaryProps.
Import Py LangChain Reference App AppReference.

Section WithRepr.

Variable py_repr : pyval -> string.

Lemma bullet_section_outcome (memory : pydict) (key header : string) :
  exists lines : list string,
    Memory.bullet_section py_repr memory key header
    = if unlistable (dict_get memory key) then Raise TypeError else Return lines.
Proof.
  unfold Memory.bullet_section, unlistable.
  destruct (truthy (dict_get memory key)) eqn:Ht; cbn [andb].
  - rewrite (PyFacts.lookup_truthy _ _ Ht). cbn [bindR].
    destruct (iter (dict_get memory key)) as [items|e] eqn:Hi; cbn [bindR].
    + cbn iota. eexists; reflexivity.
    + exists []. now rewrite (AppProps.iter_raises _ Hi).
  - eexists; reflexivity.
Qed.

(** X8: [format_memory_summary] accepts any [dict]: a missing key, a field of
    another shape, a string or an object in place of a list.  It raises, a
    [TypeError], exactly when the preferences or the facts are a truthy
    value that cannot be listed. *)
Theorem format_memory_summary_raises_iff (memory : pydict) :
  exists summary : string,
    Memory.format_memory_summary py_repr memory
    = if unlistable (dict_get memory "preferences")
         || unlistable (dict_get memory "facts")
      then Raise TypeError
      else Return summary.
Proof.
  unfold Memory.format_memory_summary, Memory.summary_parts.
  destruct (bullet_section_outcome memory "preferences" "**User Preferences:**")
    as (prefs & ->).
  destruct (unlistable (dict_get memory "preferences")); cbn [orb bindR].
  { exists EmptyString. reflexivity. }
  destruct (bullet_section_outcome memory "facts" (nl ++ "**Key Facts:**"))
    as (fcts & Hf).
  destruct (truthy (dict_get memory "emotional_patterns")) eqn:Hte;
    [rewrite (PyFacts.lookup_truthy _ _ Hte)|]; cbn [bindR]; rewrite Hf;
    destruct (unlistable (dict_get memory "facts")); cbn [bindR]; cbn iota.
  all: try (exists EmptyString; reflexivity).
  all: eexists; reflexivity.
Qed.

End WithRepr.

End MoreSummaryProps.

Module ConstructorProps.
Import Py LangChain Reference.


End ConstructorProps.
